(** * The command router and lifecycle supervisor of [src/main.cc]

    A shallow embedding of the program entry point [MAIN] of the desktop
    shell: the scan of the command line, the stdout callback of
    command-forwarding mode, the two dispatch tables of GUI mode
    ([onStdOut], backend to surface, and [onMessage], surface to backend)
    and the shutdown handler with its signal trampoline.

    Window, application and process objects are platform collaborators:
    a call of one of their methods is recorded as an [Event] in a trace.
    The only variable of [MAIN] that the callbacks share and mutate is
    [exitCode]; it is threaded through a small state-and-exception monad. *)

From Stdlib Require Import ZArith String Ascii List Bool Lia DecimalString.
From stdpp Require Import base strings gmap.
Import ListNotations.

Local Open Scope string_scope.
Local Open Scope Z_scope.

(** ** Pieces of the C++ standard library used by [main.cc] *)

Module Std.

(** The two exceptions [std::stoi] raises. *)
Inductive stoi_error : Set :=
| invalid_argument
| out_of_range.

Definition INT_MIN : Z := - 2 ^ 31.
Definition INT_MAX : Z := 2 ^ 31 - 1.

(** [isspace] in the "C" locale: space, and HT, LF, VT, FF, CR. *)
Definition isspace (c : ascii) : bool :=
  let n := Z.of_nat (nat_of_ascii c) in
  (n =? 32) || ((9 <=? n) && (n <=? 13)).

Definition isdigit (c : ascii) : bool :=
  let n := Z.of_nat (nat_of_ascii c) in
  (48 <=? n) && (n <=? 57).

Definition digit_value (c : ascii) : Z := Z.of_nat (nat_of_ascii c) - 48.

Fixpoint skip_space (s : string) : string :=
  match s with
  | String c rest => if isspace c then skip_space rest else s
  | EmptyString => s
  end.

(** The longest run of decimal digits at the head of [s], as a number;
    [acc] is [None] as long as no digit has been consumed. *)
Fixpoint leading_digits (s : string) (acc : option Z) : option Z :=
  match s with
  | String c rest =>
      if isdigit c
      then leading_digits rest (Some (10 * default 0 acc + digit_value c))
      else acc
  | EmptyString => acc
  end.

(** [std::stoi(s)] with its default base 10: leading white space is
    skipped, one sign is accepted, the longest run of digits is
    converted and whatever follows is ignored.  Without any digit the
    call throws [std::invalid_argument]; a value that does not fit an
    [int] throws [std::out_of_range]. *)
Definition stoi (s : string) : stoi_error + Z :=
  let s1 := skip_space s in
  let '(negative, s2) :=
    match s1 with
    | String "-"%char rest => (true, rest)
    | String "+"%char rest => (false, rest)
    | _ => (false, s1)
    end in
  match leading_digits s2 None with
  | None => inl invalid_argument
  | Some n =>
      let v := if negative then - n else n in
      if (INT_MIN <=? v) && (v <=? INT_MAX) then inr v else inl out_of_range
  end.

(** [std::to_string] on an [int]: decimal digits, a minus sign for a
    negative number. *)
Definition to_string (z : Z) : string := NilZero.string_of_int (Z.to_int z).

(** [std::string::find(needle)] from position 0: the first position at
    which [needle] occurs in [s], [None] standing for [npos]. *)
Definition find (s needle : string) : option nat := String.index 0 needle s.

(** The idiom [s.find(needle) == 0]. *)
Definition find_at_0 (s needle : string) : bool :=
  match find s needle with
  | Some O => true
  | _ => false
  end.

(** The idiom [s.compare(t) == 0]. *)
Definition compare_eq (s t : string) : bool := String.eqb s t.

End Std.

(** ** What [main.cc] takes from [common.hh] and the platform headers *)

Module Common.

(** The two windows [w0] and [w1] of GUI mode. *)
Inductive Window : Set := w0 | w1.

#[global] Instance Window_eq_dec : EqDecision Window.
Proof. solve_decision. Defined.

(** Modelled from the spec: the structure [Parse] of [common.hh], of
    which [main.cc] reads the members [name] and [index] and calls
    [get].  A command has a verb, an integer window index and a
    mapping from field names to strings with unique keys. *)
Record Parse : Type := mkParse {
  name : string;
  index : Z;
  args : gmap string string
}.

(** Modelled from the spec: [Parse::get] of [common.hh]; field lookup
    is an exact match on the key and a missing key gives the empty
    string. *)
Definition get (cmd : Parse) (key : string) : string :=
  default "" (args cmd !! key).

(** Modelled from the spec: the result of [Window::getScreenSize], the
    display metrics as two integers. *)
Record ScreenSize : Set := mkScreenSize { width : Z; height : Z }.

(** The free functions of [common.hh] that [main.cc] calls; their
    bodies are not part of [main.cc], so the development is parametric
    in them. [Parse_of out] stands for the constructor call
    [Parse cmd(out)]. *)
Class Helpers : Type := {
  Parse_of : string -> Parse;
  decodeURIComponent : string -> string;
  encodeURIComponent : string -> string;
  resolveToMainProcess : string -> string -> string -> string;
  resolveToRenderProcess : string -> string -> string -> string;
  emitToRenderProcess : string -> string -> string;
  replace : string -> string -> string -> string
}.

(** What the platform answers when asked: the display metrics a
    window reports and the process id of the backend. *)
Record Host : Type := mkHost {
  getScreenSize : Window -> ScreenSize;
  getPID : Z
}.

(** Modelled from the spec: [Process::write] of [process.hh], the
    write channel of the process supervisor.  It pushes one line to
    the input of the child: the text handed over, then the line
    termination the protocol requires. *)
Definition Process_write (data : string) : string :=
  data +:+ String "010"%char EmptyString.

End Common.
Export Common.

(** ** Effects *)

Module Effects.

(** One constructor per method of a collaborator that [main.cc]
    calls, with the arguments of the call, and one for each write to a
    standard stream and for [exit]. *)
Inductive Event : Type :=
| SetTitle (w : Window) (seq value : string)
| AppRestart
| Show (w : Window) (seq : string)
| Hide (w : Window) (seq : string)
| Navigate (w : Window) (seq value : string)
| SetSize (w : Window) (seq : string) (width height hint : Z)
| SetSystemMenu (w : Window) (seq value : string)
| OpenExternal (w : Window) (uri : string)
| WindowExit (w : Window) (code : Z)
| Eval (w : Window) (script : string)
| WriteToStdout (text : string)
| OnMessage (w : Window) (msg : string)
| ShowInspector (w : Window)
| OpenDialog (w : Window) (seq : string)
    (isSave allowDirs allowFiles allowMultiple : bool)
    (defaultPath title defaultName : string)
| SetContextMenu (w : Window) (seq value : string)
| ProcessWrite (data : string)
| ProcessKill (pid : Z)
| WindowKill (w : Window)
| AppKill
| CoutLine (text : string)
| ExitCall (code : Z).

(** How a piece of code ends: it returns, an exception of [std::stoi]
    leaves it, or it has called [exit]. *)
Inductive Outcome (A : Type) : Type :=
| Returned (a : A)
| Thrown (e : Std.stoi_error)
| Exited (code : Z).
Arguments Returned {A} a.
Arguments Thrown {A} e.
Arguments Exited {A} code.

(** The result of running a piece of code from a given value of the
    variable [exitCode]: the value it leaves in [exitCode], the events
    in the order it performed them, and how it ended. *)
Record Run (A : Type) : Type := mkRun {
  exitCode : Z;
  trace : list Event;
  outcome : Outcome A
}.
Arguments mkRun {A} exitCode trace outcome.
Arguments exitCode {A} r.
Arguments trace {A} r.
Arguments outcome {A} r.

Definition M (A : Type) : Type := Z -> Run A.

#[global] Instance M_ret : MRet M :=
  fun A a s => mkRun s [] (Returned a).

(** Sequencing: an exception or a call of [exit] in the first part
    skips the second. *)
#[global] Instance M_bind : MBind M :=
  fun A B f m s =>
    let r := m s in
    match outcome r with
    | Returned a =>
        let r' := f a (exitCode r) in
        mkRun (exitCode r') (trace r ++ trace r') (outcome r')
    | Thrown e => mkRun (exitCode r) (trace r) (Thrown e)
    | Exited c => mkRun (exitCode r) (trace r) (Exited c)
    end.

Definition emit (e : Event) : M unit := fun s => mkRun s [e] (Returned tt).
Definition read_exitCode : M Z := fun s => mkRun s [] (Returned s).
Definition assign_exitCode (v : Z) : M unit := fun _ => mkRun v [] (Returned tt).
Definition throw {A} (e : Std.stoi_error) : M A := fun s => mkRun s [] (Thrown e).

(** [exit(code)]: the call is recorded and nothing runs after it. *)
Definition exit {A} (code : Z) : M A := fun s => mkRun s [ExitCall code] (Exited code).

(** [std::stoi] as a computation that may throw. *)
Definition stoi (s : string) : M Z :=
  match Std.stoi s with
  | inr v => mret v
  | inl e => throw e
  end.

(** [try { body } catch (...) { }]: an exception that leaves [body] is
    swallowed; what [body] did before it stays done. *)
Definition try_catch_all (body : M unit) : M unit :=
  fun s =>
    let r := body s in
    match outcome r with
    | Thrown _ => mkRun (exitCode r) (trace r) (Returned tt)
    | _ => r
    end.

(** The window an event is addressed to, if it is addressed to one. *)
Definition event_window (e : Event) : option Window :=
  match e with
  | SetTitle w _ _ | Show w _ | Hide w _ | Navigate w _ _
  | SetSize w _ _ _ _ | SetSystemMenu w _ _ | OpenExternal w _
  | WindowExit w _ | Eval w _ | OnMessage w _ | ShowInspector w
  | OpenDialog w _ _ _ _ _ _ _ _ | SetContextMenu w _ _ | WindowKill w => Some w
  | AppRestart | WriteToStdout _ | ProcessWrite _ | ProcessKill _
  | AppKill | CoutLine _ | ExitCall _ => None
  end.

End Effects.
Export Effects.

(** ** The program entry point [MAIN] *)

Module Main.

Section WithHelpers.

Context `{helpers : Helpers} (host : Host).

(** *** The scan of the command line (lines 50 to 110) *)

(** The local variables of [MAIN] that the loop over [argv] updates. *)
Record Scan : Type := mkScan {
  c : Z;
  isCommandMode : bool;
  isTest : bool;
  suffix : string;
  wantsVersion : bool;
  wantsHelp : bool;
  argvArray : string;
  argvForward : string
}.

Definition scan_start : Scan := mkScan 0 false false "" false false "" "".

Definition helpRequested (arg : string) : bool :=
  Std.find_at_0 arg "--help" ||
  Std.find_at_0 arg "-help" ||
  Std.find_at_0 arg "-h".

Definition versionRequested (arg : string) : bool :=
  Std.find_at_0 arg "--version" ||
  Std.find_at_0 arg "-version" ||
  Std.find_at_0 arg "-v" ||
  Std.find_at_0 arg "-V".

(** One turn of [for (auto const arg : std::span(argv, argc))]. *)
Definition scan_arg (argc : Z) (st : Scan) (arg : string) : Scan :=
  let argvArray' :=
    argvArray st +:+ "'" +:+ replace arg "'" "'" +:+
    (if c st <? argc then "', " else "'") in
  let c' := c st + 1 in
  let wantsHelp' := if helpRequested arg then true else wantsHelp st in
  let wantsVersion' := if versionRequested arg then true else wantsVersion st in
  let '(suffix', isTest', isCommandMode') :=
    if Std.find_at_0 arg "--test" then ("-test", true, isCommandMode st)
    else if (c' >=? 2) && negb (Std.find_at_0 arg "-")
    then (suffix st, isTest st, true)
    else (suffix st, isTest st, isCommandMode st) in
  let isCommandMode'' :=
    if helpRequested arg || versionRequested arg then true else isCommandMode' in
  let argvForward' :=
    if helpRequested arg
    then argvForward st +:+ " " +:+ "help --warn-arg-usage=" +:+ arg
    else if versionRequested arg
    then argvForward st +:+ " " +:+ "version --warn-arg-usage=" +:+ arg
    else if (c' >? 1) || isCommandMode''
    then argvForward st +:+ " " +:+ arg
    else argvForward st in
  mkScan c' isCommandMode'' isTest' suffix' wantsVersion' wantsHelp'
    argvArray' argvForward'.

(** The whole loop, from the initial values of the variables. *)
Definition scan_argv (argv : list string) : Scan :=
  fold_left (scan_arg (Z.of_nat (length argv))) argv scan_start.

(** [if (isCommandMode) { ... return exitCode; }], and only after it the
    construction of the two windows. *)
Inductive Mode : Set := CommandMode | GuiMode.

Definition MAIN_mode (argv : list string) : Mode :=
  if isCommandMode (scan_argv argv) then CommandMode else GuiMode.

(** *** Command-forwarding mode (lines 146 to 180) *)

(** The stdout callback handed to [Process] in command mode. *)
Definition commandMode_onStdOut (out : string) : M unit :=
  let cmd := Parse_of out in
  if negb (String.eqb (name cmd) "exit") then
    emit (CoutLine (decodeURIComponent (get cmd "value")))
  else if String.eqb (name cmd) "exit" then
    v ← stoi (get cmd "value");
    assign_exitCode v;;
    code ← read_exitCode;
    exit code
  else mret tt.

(** The shutdown handler installed in command mode. *)
Definition commandMode_shutdownHandler (signum : Z) : M unit :=
  let pid := getPID host in
  emit (ProcessKill pid);;
  exit signum.

(** *** GUI mode, backend to surface: [onStdOut] (lines 238 to 342) *)

Definition dquote : string := String "034"%char EmptyString.

(** The window a command addresses: [cmd.index == 0 ? w0 : w1]. *)
Definition target (cmd : Parse) : Window :=
  if index cmd =? 0 then w0 else w1.

(** The closure that [onStdOut] hands to [app.dispatch].  The call
    [w.onMessage(...)] invokes the callback slot of the window and is
    recorded as [OnMessage] with the message handed over; lines 438 and
    439 put [onMessage], below, into the slot of both windows.  In the
    same way [w.exit(exitCode)] is recorded as [WindowExit] with the
    code handed over.  What the two slots do when they are called is
    the subject of [onStdOut_live] and [onMessage_live], further
    down. *)
Definition onStdOut (out : string) : M unit :=
  let cmd := Parse_of out in
  let w := target cmd in
  let seq := get cmd "seq" in
  let value := get cmd "value" in
  if String.eqb (name cmd) "title" then
    emit (SetTitle w seq (decodeURIComponent value))
  else if String.eqb (name cmd) "restart" then
    emit AppRestart
  else if String.eqb (name cmd) "show" then
    emit (Show w seq)
  else if String.eqb (name cmd) "hide" then
    emit (Hide w seq)
  else if String.eqb (name cmd) "navigate" then
    emit (Navigate w seq (decodeURIComponent value))
  else if String.eqb (name cmd) "size" then
    width ← stoi (get cmd "width");
    height ← stoi (get cmd "height");
    emit (SetSize w seq width height 0)
  else if String.eqb (name cmd) "getScreenSize" then
    let size := getScreenSize host w in
    let value :=
      "{" +:+
        dquote +:+ "width" +:+ dquote +:+ ":" +:+ Std.to_string (width size) +:+ "," +:+
        dquote +:+ "height" +:+ dquote +:+ ":" +:+ Std.to_string (height size) +:+ "" +:+
      "}" in
    emit (OnMessage w (resolveToMainProcess seq "0" (encodeURIComponent value)))
  else if String.eqb (name cmd) "menu" then
    emit (SetSystemMenu w seq (decodeURIComponent value))
  else if String.eqb (name cmd) "external" then
    emit (OpenExternal w (decodeURIComponent value));;
    if (0 <? String.length seq)%nat
    then emit (OnMessage w (resolveToMainProcess seq "0" "null"))
    else mret tt
  else if String.eqb (name cmd) "exit" then
    try_catch_all (v ← stoi value; assign_exitCode v);;
    code ← read_exitCode;
    emit (WindowExit w code);;
    if (0 <? String.length seq)%nat
    then emit (OnMessage w (resolveToMainProcess seq "0" "null"))
    else mret tt
  else if String.eqb (name cmd) "resolve" then
    emit (Eval w (resolveToRenderProcess seq (get cmd "state") value))
  else if String.eqb (name cmd) "send" then
    emit (Eval w (emitToRenderProcess (decodeURIComponent (get cmd "event")) value))
  else if String.eqb (name cmd) "stdout" then
    emit (WriteToStdout (decodeURIComponent value))
  else mret tt.

(** *** GUI mode, surface to backend: [onMessage] (lines 363 to 436) *)

Definition onMessage (out : string) : M unit :=
  let cmd := Parse_of out in
  let w := target cmd in
  if String.eqb (name cmd) "title" then
    emit (SetTitle w (get cmd "seq") (decodeURIComponent (get cmd "value")))
  else if String.eqb (name cmd) "exit" then
    try_catch_all
      (v ← stoi (decodeURIComponent (get cmd "value")); assign_exitCode v);;
    code ← read_exitCode;
    emit (WindowExit w code)
  else if String.eqb (name cmd) "hide" then
    emit (Hide w "")
  else if String.eqb (name cmd) "inspect" then
    emit (ShowInspector w)
  else if String.eqb (name cmd) "external" then
    emit (OpenExternal w (decodeURIComponent (get cmd "value")))
  else if String.eqb (name cmd) "dialog" then
    let isSave := Std.compare_eq (get cmd "type") "save" in
    let allowDirs := Std.compare_eq (get cmd "allowDirs") "true" in
    let allowFiles := Std.compare_eq (get cmd "allowFiles") "true" in
    let allowMultiple := Std.compare_eq (get cmd "allowMultiple") "true" in
    let defaultName := decodeURIComponent (get cmd "defaultName") in
    let defaultPath := decodeURIComponent (get cmd "defaultPath") in
    let title := decodeURIComponent (get cmd "title") in
    emit (OpenDialog w (get cmd "seq") isSave allowDirs allowFiles allowMultiple
            defaultPath title defaultName)
  else if String.eqb (name cmd) "context" then
    let seq := get cmd "seq" in
    let value := decodeURIComponent (get cmd "value") in
    emit (SetContextMenu w seq value)
  else
    emit (ProcessWrite out).

(** *** Exiting (lines 25 to 26 and 447 to 468) *)

Definition shutdownHandler (code : Z) : M unit :=
  let pid := getPID host in
  emit (ProcessKill pid);;
  emit (WindowKill w0);;
  emit (WindowKill w1);;
  emit AppKill;;
  exit code.

(** [void signalHandler(int signal) { shutdownHandler(signal); }] *)
Definition signalHandler (signal : Z) : M unit := shutdownHandler signal.

Definition SIGHUP : Z := 1.
Definition SIGINT : Z := 2.

(** *** Callbacks driven by a stream of lines *)

(** A callback applied to the lines of a stream, one after the other in
    the order they arrive.  [MAIN] has no handler around the event loop
    [while(app.run() == 0);] nor around the readers of [Process], so an
    exception that leaves one call, like a call of [exit], ends the
    sequence. *)
Fixpoint for_each_line (callback : string -> M unit) (lines : list string) : M unit :=
  match lines with
  | [] => mret tt
  | line :: rest => callback line;; for_each_line callback rest
  end.

(** *** The callback slots of the windows (lines 191, 218, 438, 439 and 457 to 459) *)

(** [.canExit = true] in the options of [w0] (line 191) and
    [.canExit = false] in those of [w1] (line 218). *)
Definition canExit (w : Window) : bool :=
  match w with
  | w0 => true
  | w1 => false
  end.

(** Modelled from the spec: [Window::exit] of the platform headers,
    with [w0.onExit = shutdownHandler; w1.onExit = shutdownHandler] of
    lines 458 and 459 in the slot.  An exit command whose window can
    exit invokes the shutdown handler with the code; on a window that
    cannot exit the call returns. *)
Definition Window_exit (w : Window) (code : Z) : M unit :=
  emit (WindowExit w code);;
  if canExit w then shutdownHandler code else mret tt.

(** [onMessage], lines 363 to 436, with [w.exit] doing what
    [Window_exit] says. *)
Definition onMessage_live (out : string) : M unit :=
  let cmd := Parse_of out in
  let w := target cmd in
  if String.eqb (name cmd) "title" then
    emit (SetTitle w (get cmd "seq") (decodeURIComponent (get cmd "value")))
  else if String.eqb (name cmd) "exit" then
    try_catch_all
      (v ← stoi (decodeURIComponent (get cmd "value")); assign_exitCode v);;
    code ← read_exitCode;
    Window_exit w code
  else if String.eqb (name cmd) "hide" then
    emit (Hide w "")
  else if String.eqb (name cmd) "inspect" then
    emit (ShowInspector w)
  else if String.eqb (name cmd) "external" then
    emit (OpenExternal w (decodeURIComponent (get cmd "value")))
  else if String.eqb (name cmd) "dialog" then
    let isSave := Std.compare_eq (get cmd "type") "save" in
    let allowDirs := Std.compare_eq (get cmd "allowDirs") "true" in
    let allowFiles := Std.compare_eq (get cmd "allowFiles") "true" in
    let allowMultiple := Std.compare_eq (get cmd "allowMultiple") "true" in
    let defaultName := decodeURIComponent (get cmd "defaultName") in
    let defaultPath := decodeURIComponent (get cmd "defaultPath") in
    let title := decodeURIComponent (get cmd "title") in
    emit (OpenDialog w (get cmd "seq") isSave allowDirs allowFiles allowMultiple
            defaultPath title defaultName)
  else if String.eqb (name cmd) "context" then
    let seq := get cmd "seq" in
    let value := decodeURIComponent (get cmd "value") in
    emit (SetContextMenu w seq value)
  else
    emit (ProcessWrite out).

(** [w.onMessage(msg)] with [w0.onMessage = onMessage;
    w1.onMessage = onMessage] of lines 438 and 439 in the slot. *)
Definition Window_onMessage (w : Window) (msg : string) : M unit :=
  emit (OnMessage w msg);;
  onMessage_live msg.

(** The closure of [onStdOut], lines 245 to 341, with [w.exit] and
    [w.onMessage] doing what [Window_exit] and [Window_onMessage]
    say. *)
Definition onStdOut_live (out : string) : M unit :=
  let cmd := Parse_of out in
  let w := target cmd in
  let seq := get cmd "seq" in
  let value := get cmd "value" in
  if String.eqb (name cmd) "title" then
    emit (SetTitle w seq (decodeURIComponent value))
  else if String.eqb (name cmd) "restart" then
    emit AppRestart
  else if String.eqb (name cmd) "show" then
    emit (Show w seq)
  else if String.eqb (name cmd) "hide" then
    emit (Hide w seq)
  else if String.eqb (name cmd) "navigate" then
    emit (Navigate w seq (decodeURIComponent value))
  else if String.eqb (name cmd) "size" then
    width ← stoi (get cmd "width");
    height ← stoi (get cmd "height");
    emit (SetSize w seq width height 0)
  else if String.eqb (name cmd) "getScreenSize" then
    let size := getScreenSize host w in
    let value :=
      "{" +:+
        dquote +:+ "width" +:+ dquote +:+ ":" +:+ Std.to_string (width size) +:+ "," +:+
        dquote +:+ "height" +:+ dquote +:+ ":" +:+ Std.to_string (height size) +:+ "" +:+
      "}" in
    Window_onMessage w (resolveToMainProcess seq "0" (encodeURIComponent value))
  else if String.eqb (name cmd) "menu" then
    emit (SetSystemMenu w seq (decodeURIComponent value))
  else if String.eqb (name cmd) "external" then
    emit (OpenExternal w (decodeURIComponent value));;
    if (0 <? String.length seq)%nat
    then Window_onMessage w (resolveToMainProcess seq "0" "null")
    else mret tt
  else if String.eqb (name cmd) "exit" then
    try_catch_all (v ← stoi value; assign_exitCode v);;
    code ← read_exitCode;
    Window_exit w code;;
    if (0 <? String.length seq)%nat
    then Window_onMessage w (resolveToMainProcess seq "0" "null")
    else mret tt
  else if String.eqb (name cmd) "resolve" then
    emit (Eval w (resolveToRenderProcess seq (get cmd "state") value))
  else if String.eqb (name cmd) "send" then
    emit (Eval w (emitToRenderProcess (decodeURIComponent (get cmd "event")) value))
  else if String.eqb (name cmd) "stdout" then
    emit (WriteToStdout (decodeURIComponent value))
  else mret tt.

(** Modelled from the spec: [App::dispatch] and [App::run], which queue
    closures and run them in the order they were queued on the
    event-loop thread.  The router loop of GUI mode runs the closure of
    [onStdOut], with the slots of the windows as [MAIN] fills them, for
    each line the backend prints. *)
Definition router_loop (lines : list string) : M unit :=
  for_each_line onStdOut_live lines.

(** *** A second signal during the teardown *)

(** [signal(SIGHUP, signalHandler)] and [signal(SIGINT, signalHandler)]
    install the handler for asynchronous delivery.  [double_signal k s1 s2]
    is the run in which the handler is entered for [s1] and the signal
    [s2] arrives after the first [k] effects of that entry.  A signal
    is blocked while its own handler runs, and the handler never
    returns, so a second delivery of the same signal is never served.
    A different signal enters the handler again: the second entry runs
    on top of the first and the first is never resumed, since the second
    ends in [exit].  When the first entry has already performed all of
    its effects, [exit] included, no process is left to receive [s2]. *)
Definition double_signal (k : nat) (s1 s2 : Z) : M unit :=
  fun e =>
    let first := signalHandler s1 e in
    if s1 =? s2 then first
    else if (k <? length (trace first))%nat then
      let second := signalHandler s2 e in
      mkRun (exitCode second) (firstn k (trace first) ++ trace second) (outcome second)
    else first.

Definition is_ProcessKill (e : Event) : bool :=
  match e with ProcessKill _ => true | _ => false end.

(** What reaches the input of the backend through the calls of
    [process.write] recorded in a trace. *)
Fixpoint backend_stdin (t : list Event) : string :=
  match t with
  | [] => ""
  | ProcessWrite data :: rest => Process_write data +:+ backend_stdin rest
  | _ :: rest => backend_stdin rest
  end.

(** The verbs [onMessage] compares [cmd.name] with, in the order of the
    comparisons. *)
Definition local_verbs : list string :=
  ["title"; "exit"; "hide"; "inspect"; "external"; "dialog"; "context"].

(** The replies that [resolveToMainProcess] builds are commands that
    [onMessage] does not serve itself. *)
Definition replies_are_forwarded : Prop :=
  forall seq state value : string,
    ~ In (name (Parse_of (resolveToMainProcess seq state value))) local_verbs.

(** A line of the backend that is neither a size command nor an exit
    command on window 0. *)
Definition goes_on (line : string) : Prop :=
  name (Parse_of line) <> "size"
  /\ (name (Parse_of line) = "exit" -> index (Parse_of line) <> 0).

Definition is_teardown_step (e : Event) : bool :=
  match e with
  | ProcessKill _ | WindowKill _ | AppKill => true
  | _ => false
  end.

End WithHelpers.

End Main.

(** ** The rest of the start-up of [MAIN] (lines 112 to 144) *)

Module Startup.

(** [s[0]] on a [std::string]: the first character, and the
    terminating null character when [s] is empty. *)
Definition at_0 (s : string) : ascii :=
  match s with
  | String ch _ => ch
  | EmptyString => Ascii.zero
  end.

(** [s.find_first_of(ch)]: the first position that holds [ch], [None]
    standing for [npos]. *)
Fixpoint find_first_of (s : string) (ch : ascii) : option nat :=
  match s with
  | EmptyString => None
  | String b rest =>
      if Ascii.eqb b ch then Some O
      else match find_first_of rest ch with
           | Some n => Some (S n)
           | None => None
           end
  end.

(** [s.substr(pos, len)], [None] standing for [npos] in either place:
    [std::out_of_range] when [pos] is beyond the size of [s], else the
    characters from [pos] on, [len] of them at most. *)
Definition substr (s : string) (pos len : option nat) : Std.stoi_error + string :=
  match pos with
  | None => inl Std.out_of_range
  | Some p =>
      if (String.length s <? p)%nat then inl Std.out_of_range
      else inr (String.substring p
                  (match len with
                   | Some n => n
                   | None => String.length s
                   end) s)
  end.

(** [std::filesystem::path] with its constructor from a string and its
    operator [/], and [pathToString] of [common.hh]. *)
Class Paths : Type := {
  Path : Type;
  fs_path : string -> Path;
  fs_div : Path -> Path -> Path;
  pathToString : Path -> string
}.

(** Lines 137 to 144, [cmd] being [appData[platform.os + "_cmd"]]: a
    command that starts with a dot is made absolute. *)
Definition resolve_cmd `{Paths} (cwd cmd : string) : Std.stoi_error + string :=
  if Ascii.eqb (at_0 cmd) "."%char then
    let index := find_first_of cmd "."%char in
    match substr cmd (Some O) index with
    | inl err => inl err
    | inr executable =>
        let absPath := fs_div (fs_path cwd) (fs_path executable) in
        match substr cmd index None with
        | inl err => inl err
        | inr rest => inr (pathToString absPath +:+ rest)
        end
    end
  else inr cmd.

(** [appData] is declared in [common.hh]; [main.cc] uses it as a
    [std::map] from strings to strings.  [m[key]] on such a map: the
    value under [key], the empty string when the key is new; the key is
    in the map afterwards. *)
Definition subscript (m : gmap string string) (key : string)
  : gmap string string * string :=
  let v := default "" (m !! key) in (<[key := v]> m, v).

(** [m[key] += text]. *)
Definition subscript_append (m : gmap string string) (key text : string)
  : gmap string string :=
  let '(m', v) := subscript m key in <[key := v +:+ text]> m'.

(** Lines 112 to 125: the suffixes of the name and of the title, and
    the options that close the arguments forwarded to the backend.
    [DEBUG] is the compile-time switch. *)
Definition finish_args (DEBUG : bool) (appData : gmap string string)
    (suffix argvForward : string) : gmap string string * string :=
  let appData1 :=
    if DEBUG
    then subscript_append (subscript_append appData "name" "-dev") "title" "-dev"
    else appData in
  let appData2 := subscript_append appData1 "name" suffix in
  let appData3 := subscript_append appData2 "title" suffix in
  let '(appData4, version) := subscript appData3 "version" in
  let argvForward1 := argvForward +:+ " --version=" +:+ version in
  let '(appData5, name) := subscript appData4 "name" in
  let argvForward2 := argvForward1 +:+ " --name=" +:+ name in
  let argvForward3 :=
    if DEBUG then argvForward2 +:+ " --debug=1" else argvForward2 in
  (appData5, argvForward3).

End Startup.

(** ** The message callback slot of the windows (lines 438 and 439) *)

Module Callbacks.

Section WithHelpers.

Context `{helpers : Helpers} (host : Host).

(** The messages a trace hands to the callback slot of a window, in
    order. *)
Fixpoint callback_messages (t : list Event) : list string :=
  match t with
  | [] => []
  | OnMessage _ msg :: rest => msg :: callback_messages rest
  | _ :: rest => callback_messages rest
  end.

(** The closure of [onStdOut] with the slot of both windows holding
    [onMessage], as [w0.onMessage = onMessage; w1.onMessage = onMessage]
    leave it.  In each branch of [onStdOut] that calls [w.onMessage] the
    call is the last statement before [return], so the run of the
    callback follows the events of the branch. *)
Definition onStdOut_wired (out : string) : M unit :=
  fun e =>
    let r := Main.onStdOut host out e in
    match outcome r with
    | Returned _ =>
        let r' :=
          Main.for_each_line Main.onMessage (callback_messages (trace r))
            (exitCode r) in
        mkRun (exitCode r') (trace r ++ trace r') (outcome r')
    | _ => r
    end.

End WithHelpers.

End Callbacks.

(** ** A concrete runtime, to run the callbacks on lines of text *)

Module Demo.

(** The pieces of [s] between occurrences of [sep]; [cur] is the piece
    being read. *)
Fixpoint split_on (sep : ascii) (s cur : string) : list string :=
  match s with
  | EmptyString => [cur]
  | String ch rest =>
      if Ascii.eqb ch sep then cur :: split_on sep rest ""
      else split_on sep rest (cur +:+ String ch "")
  end.

(** A token [key=value], cut at its first [=]. *)
Fixpoint cut_field (s key : string) : option (string * string) :=
  match s with
  | EmptyString => None
  | String ch rest =>
      if Ascii.eqb ch "="%char then Some (key, rest)
      else cut_field rest (key +:+ String ch "")
  end.

Fixpoint fields_of (tokens : list string) : gmap string string :=
  match tokens with
  | [] => ∅
  | t :: rest =>
      match cut_field t "" with
      | Some (k, v) => <[k := v]> (fields_of rest)
      | None => fields_of rest
      end
  end.

(** Modelled from the spec: the line protocol [name field=value ...],
    one command per line; the window index is the field [index] and an
    absent or unparseable index is 0. *)
Definition parse_line (line : string) : Parse :=
  match split_on " "%char line "" with
  | [] => mkParse "" 0 ∅
  | verb :: tokens =>
      let fields := fields_of tokens in
      let idx :=
        match Std.stoi (default "" (fields !! "index")) with
        | inr v => v
        | inl _ => 0
        end in
      mkParse verb idx fields
  end.

Definition hex_digit (n : nat) : ascii :=
  ascii_of_nat (if (n <? 10)%nat then 48 + n else 55 + n).

Definition hex_value (ch : ascii) : option nat :=
  let n := nat_of_ascii ch in
  if ((48 <=? n) && (n <=? 57))%nat then Some (n - 48)%nat
  else if ((65 <=? n) && (n <=? 70))%nat then Some (n - 55)%nat
  else if ((97 <=? n) && (n <=? 102))%nat then Some (n - 87)%nat
  else None.

Definition unreserved (ch : ascii) : bool :=
  let n := nat_of_ascii ch in
  (((48 <=? n) && (n <=? 57)) || ((65 <=? n) && (n <=? 90)) ||
   ((97 <=? n) && (n <=? 122)))%nat ||
  existsb (Ascii.eqb ch) (list_ascii_of_string "-_.!~*'()").

(** Modelled from the spec: the percent-encoding of field values. *)
Fixpoint percent_encode (s : string) : string :=
  match s with
  | EmptyString => ""
  | String ch rest =>
      if unreserved ch then String ch (percent_encode rest)
      else
        let n := nat_of_ascii ch in
        String "%"%char
          (String (hex_digit (n / 16)) (String (hex_digit (n mod 16))
             (percent_encode rest)))
  end.

(** Modelled from the spec: the percent-decoding of field values. *)
Fixpoint percent_decode (s : string) : string :=
  match s with
  | EmptyString => ""
  | String ch rest =>
      match rest with
      | String a (String b rest') =>
          match Ascii.eqb ch "%"%char, hex_value a, hex_value b with
          | true, Some hi, Some lo =>
              String (ascii_of_nat (16 * hi + lo)) (percent_decode rest')
          | _, _, _ => String ch (percent_decode rest)
          end
      | _ => String ch (percent_decode rest)
      end
  end.

(** Occurrences of a one-character pattern replaced. *)
Fixpoint replace_char (s : string) (from : ascii) (to : string) : string :=
  match s with
  | EmptyString => ""
  | String ch rest =>
      (if Ascii.eqb ch from then to else String ch "") +:+ replace_char rest from to
  end.

(** The helpers of the concrete runtime.  The texts of the replies and
    of the scripts are renderings chosen here, in the notation of the
    line protocol, so that a reply can be read back by [parse_line]. *)
#[local] Instance helpers : Helpers := {|
  Parse_of := parse_line;
  decodeURIComponent := percent_decode;
  encodeURIComponent := percent_encode;
  resolveToMainProcess seq state value :=
    "resolve seq=" +:+ seq +:+ " state=" +:+ state +:+ " value=" +:+ value;
  resolveToRenderProcess seq state value :=
    "resolve(" +:+ seq +:+ "," +:+ state +:+ "," +:+ value +:+ ")";
  emitToRenderProcess event value :=
    "emit(" +:+ event +:+ "," +:+ value +:+ ")";
  replace s from to :=
    match from with
    | String ch EmptyString => replace_char s ch to
    | _ => s
    end
|}.

(** A display of 1920 by 1080 for both windows, and a backend with
    process id 4242. *)
Definition host : Host := mkHost (fun _ => mkScreenSize 1920 1080) 4242.

End Demo.

(** * Properties *)

Example stoi_42 : Std.stoi "42" = inr 42.
Proof. reflexivity. Qed.

Example stoi_trailing : Std.stoi "  -7px" = inr (-7).
Proof. reflexivity. Qed.

Example stoi_abc : Std.stoi "abc" = inl Std.invalid_argument.
Proof. reflexivity. Qed.

Example stoi_empty : Std.stoi "" = inl Std.invalid_argument.
Proof. reflexivity. Qed.

Example stoi_big : Std.stoi "2147483648" = inl Std.out_of_range.
Proof. reflexivity. Qed.

Example to_string_1920 : Std.to_string 1920 = "1920".
Proof. reflexivity. Qed.

Example to_string_neg : Std.to_string (-5) = "-5".
Proof. reflexivity. Qed.

Example to_string_0 : Std.to_string 0 = "0".
Proof. reflexivity. Qed.

Example find_help : Std.find_at_0 "--help=me" "--help" = true.
Proof. reflexivity. Qed.

Example find_inner : Std.find_at_0 "x-h" "-h" = false.
Proof. reflexivity. Qed.

Example parse_getScreenSize :
  Demo.parse_line "getScreenSize index=0 seq=7"
  = mkParse "getScreenSize" 0 (<["index" := "0"]> (<["seq" := "7"]> ∅)).
Proof. reflexivity. Qed.

Example percent_encode_space : Demo.percent_encode "a b&c" = "a%20b%26c".
Proof. reflexivity. Qed.

Example percent_decode_space : Demo.percent_decode "a%20b%26c" = "a b&c".
Proof. reflexivity. Qed.

(** ** The GUI routers and the handlers, for any helpers and any host *)

Section Properties.

Context `{helpers : Helpers} (host : Host).

(** The teardown a single entry of the shutdown handler performs. *)
Lemma shutdownHandler_run (code e : Z) :
  Main.shutdownHandler host code e
  = mkRun e
      [ProcessKill (getPID host); WindowKill w0; WindowKill w1; AppKill;
       ExitCall code]
      (Exited code).
Proof. reflexivity. Qed.

(** C4: every entry of the shutdown handler of GUI mode kills the
    backend process, then window 0, then window 1, then the application
    shell, and ends in [exit] with the code it was given; entered through
    the signal trampoline, for SIGINT and SIGHUP as for any signal, that
    code is the signal number. *)
Theorem C4_shutdown_order (code signal e : Z) :
  Main.shutdownHandler host code e
  = mkRun e
      [ProcessKill (getPID host); WindowKill w0; WindowKill w1; AppKill;
       ExitCall code]
      (Exited code)
  /\ Main.signalHandler host signal e = Main.shutdownHandler host signal e
  /\ outcome (Main.signalHandler host signal e) = Exited signal
  /\ outcome (Main.signalHandler host Main.SIGINT e) = Exited Main.SIGINT
  /\ outcome (Main.signalHandler host Main.SIGHUP e) = Exited Main.SIGHUP.
Proof. repeat split. Qed.

(** C6: a backend command named getScreenSize makes the router ask the
    addressed window for its screen size (W, H) and call the message
    callback of that window, once, with the reply resolved for the seq
    of the command; its payload is the percent-encoding of the text
    [{"width":W,"height":H}]. Nothing else is done. *)
Theorem C6_getScreenSize_reply (out : string) (e : Z) :
  name (Parse_of out) = "getScreenSize" ->
  let cmd := Parse_of out in
  let w := Main.target cmd in
  let W := Std.to_string (width (getScreenSize host w)) in
  let H := Std.to_string (height (getScreenSize host w)) in
  let json :=
    "{" +:+ Main.dquote +:+ "width" +:+ Main.dquote +:+ ":" +:+ W +:+ "," +:+
    Main.dquote +:+ "height" +:+ Main.dquote +:+ ":" +:+ H +:+ "}" in
  Main.onStdOut host out e
  = mkRun e
      [OnMessage w (resolveToMainProcess (get cmd "seq") "0" (encodeURIComponent json))]
      (Returned tt).
Proof.
  intros Hname. cbv zeta. unfold Main.onStdOut. rewrite Hname.
  reflexivity.
Qed.

Lemma length_pos_nonempty (s : string) :
  (0 <? String.length s)%nat = negb (String.eqb s "").
Proof. destruct s; reflexivity. Qed.

(** C8: a backend command named external makes the router open the
    percent-decoded value as an external URI on the addressed window,
    and then call the message callback of that window with the reply
    resolved for the seq, with payload null, exactly when the seq field
    is not empty. *)
Theorem C8_external_acknowledge (out : string) (e : Z) :
  name (Parse_of out) = "external" ->
  let cmd := Parse_of out in
  let w := Main.target cmd in
  let seq := get cmd "seq" in
  let reply := OnMessage w (resolveToMainProcess seq "0" "null") in
  Main.onStdOut host out e
  = mkRun e
      (OpenExternal w (decodeURIComponent (get cmd "value")) ::
       (if String.eqb seq "" then [] else [reply]))
      (Returned tt)
  /\ (In reply (trace (Main.onStdOut host out e)) <-> seq <> "")
  /\ (seq = "" -> forall msg, ~ In (OnMessage w msg) (trace (Main.onStdOut host out e))).
Proof.
  intros Hname cmd w seq reply.
  assert (Hrun : Main.onStdOut host out e
    = mkRun e
        (OpenExternal w (decodeURIComponent (get cmd "value")) ::
         (if String.eqb seq "" then [] else [reply]))
        (Returned tt)).
  { unfold Main.onStdOut. rewrite Hname. fold cmd. fold w. fold seq.
    cbn [String.eqb Ascii.eqb Bool.eqb].
    rewrite length_pos_nonempty.
    destruct (String.eqb seq ""); reflexivity. }
  split; [exact Hrun|]. rewrite Hrun. cbn [trace].
  destruct (String.eqb seq "") eqn:Hseq.
  - apply String.eqb_eq in Hseq. split.
    + split.
      * intros [Hin|[]]. discriminate Hin.
      * intros Hne. contradiction.
    + intros _ msg [Hin|[]]. discriminate Hin.
  - apply String.eqb_neq in Hseq. split.
    + split; [intros _; exact Hseq | intros _; right; left; reflexivity].
    + intros Heq. contradiction.
Qed.

(** In GUI mode a value that [std::stoi] rejects leaves [exitCode] as it
    was: the backend-to-surface table passes the current [exitCode] to
    the window, and no exception leaves the closure. *)
Lemma onStdOut_exit_parse_failure (out : string) (e : Z) (err : Std.stoi_error) :
  name (Parse_of out) = "exit" ->
  Std.stoi (get (Parse_of out) "value") = inl err ->
  let cmd := Parse_of out in
  let w := Main.target cmd in
  let seq := get cmd "seq" in
  Main.onStdOut host out e
  = mkRun e
      (WindowExit w e ::
       (if String.eqb seq "" then []
        else [OnMessage w (resolveToMainProcess seq "0" "null")]))
      (Returned tt).
Proof.
  intros Hname Hstoi. cbv zeta.
  unfold Main.onStdOut, stoi. rewrite Hname, Hstoi, length_pos_nonempty.
  destruct (String.eqb (get (Parse_of out) "seq") ""); reflexivity.
Qed.

(** The same in the surface-to-backend table. *)
Lemma onMessage_exit_parse_failure (out : string) (e : Z) (err : Std.stoi_error) :
  name (Parse_of out) = "exit" ->
  Std.stoi (decodeURIComponent (get (Parse_of out) "value")) = inl err ->
  Main.onMessage out e = mkRun e [WindowExit (Main.target (Parse_of out)) e] (Returned tt).
Proof.
  intros Hname Hstoi.
  unfold Main.onMessage, stoi. rewrite Hname, Hstoi.
  reflexivity.
Qed.

(** C1, where the code departs from it: in command-forwarding mode the
    callback converts the value of an exit command with no handler
    around [stoi]; when the value is not an integer the exception leaves
    the callback, [exit] is not called and no exit code is resolved. *)
Theorem C1_commandMode_exit_throws (out : string) (e : Z) (err : Std.stoi_error) :
  name (Parse_of out) = "exit" ->
  Std.stoi (get (Parse_of out) "value") = inl err ->
  Main.commandMode_onStdOut out e = mkRun e [] (Thrown err).
Proof.
  intros Hname Hstoi.
  unfold Main.commandMode_onStdOut, stoi. rewrite Hname, Hstoi.
  reflexivity.
Qed.

(** In command mode a line that is not an exit command is echoed. *)
Lemma commandMode_echo (out : string) (e : Z) :
  name (Parse_of out) <> "exit" ->
  Main.commandMode_onStdOut out e
  = mkRun e [CoutLine (decodeURIComponent (get (Parse_of out) "value"))] (Returned tt).
Proof.
  intros Hname. apply String.eqb_neq in Hname.
  unfold Main.commandMode_onStdOut. rewrite Hname. reflexivity.
Qed.

(** In command mode an exit command with an integer value ends the
    program with it. *)
Lemma commandMode_exit (out : string) (e code : Z) :
  name (Parse_of out) = "exit" ->
  Std.stoi (get (Parse_of out) "value") = inr code ->
  Main.commandMode_onStdOut out e = mkRun code [ExitCall code] (Exited code).
Proof.
  intros Hname Hstoi.
  unfold Main.commandMode_onStdOut, stoi. rewrite Hname, Hstoi. reflexivity.
Qed.

(** C3: in command-forwarding mode a line of the backend whose name is
    not exit has its value percent-decoded and written, as one line, to
    the standard output of the host; a line whose name is exit ends the
    program through [exit] with the integer its value carries. *)
Theorem C3_commandMode_echo_or_exit (out : string) (e : Z) :
  let cmd := Parse_of out in
  (name cmd <> "exit" ->
     Main.commandMode_onStdOut out e
     = mkRun e [CoutLine (decodeURIComponent (get cmd "value"))] (Returned tt))
  /\ (name cmd = "exit" ->
      forall code, Std.stoi (get cmd "value") = inr code ->
        Main.commandMode_onStdOut out e = mkRun code [ExitCall code] (Exited code)).
Proof.
  cbv zeta. split.
  - apply commandMode_echo.
  - intros Hname code Hstoi. now apply commandMode_exit.
Qed.

(** X19: the lines of a backend in command mode, up to its exit
    command: all of them are echoed decoded, in order, and the program
    ends with the code of the exit command; what the backend prints
    after it is not read. *)
Lemma commandMode_stream (before after : list string) (last : string) (code e : Z) :
  Forall (fun l => name (Parse_of l) <> "exit") before ->
  name (Parse_of last) = "exit" ->
  Std.stoi (get (Parse_of last) "value") = inr code ->
  Main.for_each_line Main.commandMode_onStdOut (before ++ last :: after) e
  = mkRun code
      (map (fun l => CoutLine (decodeURIComponent (get (Parse_of l) "value"))) before
       ++ [ExitCall code])
      (Exited code).
Proof.
  intros Hbefore Hname Hstoi. induction Hbefore as [|l before Hl _ IH].
  - cbn [app map Main.for_each_line]. unfold mbind, M_bind.
    rewrite (commandMode_exit last e code Hname Hstoi).
    reflexivity.
  - cbn [app map Main.for_each_line] in *. unfold mbind, M_bind in *.
    rewrite (commandMode_echo l e Hl).
    cbn [outcome exitCode trace]. rewrite IH. reflexivity.
Qed.

(** C7, where the code departs from it: the size branch converts its
    two fields with no handler around [stoi].  When either field is not
    an integer the exception leaves the dispatched closure before the
    window is resized, and it leaves the router loop with it: the
    commands that follow are not processed. *)
Theorem C7_size_parse_failure_leaves_router
    (out : string) (rest : list string) (e : Z) (err : Std.stoi_error) :
  name (Parse_of out) = "size" ->
  (Std.stoi (get (Parse_of out) "width") = inl err
   \/ exists v, Std.stoi (get (Parse_of out) "width") = inr v
        /\ Std.stoi (get (Parse_of out) "height") = inl err) ->
  Main.onStdOut host out e = mkRun e [] (Thrown err)
  /\ Main.router_loop host (out :: rest) e = mkRun e [] (Thrown err).
Proof.
  intros Hname Hfields.
  assert (Hrun : Main.onStdOut host out e = mkRun e [] (Thrown err)).
  { unfold Main.onStdOut, stoi. rewrite Hname.
    destruct Hfields as [Hw|(v & Hw & Hh)].
    - rewrite Hw. reflexivity.
    - rewrite Hw, Hh. reflexivity. }
  split; [exact Hrun|].
  assert (Hlive : Main.onStdOut_live host out e = mkRun e [] (Thrown err)).
  { unfold Main.onStdOut_live, stoi. rewrite Hname.
    destruct Hfields as [Hw|(v & Hw & Hh)].
    - rewrite Hw. reflexivity.
    - rewrite Hw, Hh. reflexivity. }
  unfold Main.router_loop. cbn [Main.for_each_line]. unfold mbind, M_bind.
  rewrite Hlive. reflexivity.
Qed.

Lemma append_empty_r (s : string) : s +:+ "" = s.
Proof.
  induction s as [|ch s IH]; [reflexivity|].
  change (String ch (s +:+ "") = String ch s). now rewrite IH.
Qed.

Lemma not_local_verb (n : string) :
  ~ In n Main.local_verbs ->
  String.eqb n "title" = false /\ String.eqb n "exit" = false
  /\ String.eqb n "hide" = false /\ String.eqb n "inspect" = false
  /\ String.eqb n "external" = false /\ String.eqb n "dialog" = false
  /\ String.eqb n "context" = false.
Proof.
  intros Hn. repeat split; apply String.eqb_neq; intros ->; apply Hn;
    unfold Main.local_verbs; cbn [In]; tauto.
Qed.

(** C2: the surface-to-backend table serves the verbs title, exit,
    hide, inspect, external, dialog and context on the addressed window
    and writes nothing to the backend for them; for a command with any
    other name its only effect is to hand the line, unchanged, to the
    write channel of the backend, which sends it followed by the line
    termination. *)
Theorem C2_onMessage_local_or_forward (out : string) (e : Z) :
  let cmd := Parse_of out in
  (In (name cmd) Main.local_verbs ->
     (exists ev, trace (Main.onMessage out e) = [ev]
        /\ event_window ev = Some (Main.target cmd))
     /\ outcome (Main.onMessage out e) = Returned tt
     /\ Main.backend_stdin (trace (Main.onMessage out e)) = "")
  /\ (~ In (name cmd) Main.local_verbs ->
      Main.onMessage out e = mkRun e [ProcessWrite out] (Returned tt)
      /\ Main.backend_stdin (trace (Main.onMessage out e))
         = out +:+ String "010"%char EmptyString).
Proof.
  cbv zeta. split.
  - unfold Main.local_verbs. cbn [In].
    intros [Hn|[Hn|[Hn|[Hn|[Hn|[Hn|[Hn|[]]]]]]]];
      unfold Main.onMessage, stoi; rewrite <- Hn;
      cbn [String.eqb Ascii.eqb Bool.eqb];
      try (repeat split; [eexists; split; reflexivity | ..]; reflexivity).
    destruct (Std.stoi _);
      (repeat split; [eexists; split; reflexivity | ..]; reflexivity).
  - intros Hn. apply not_local_verb in Hn.
    destruct Hn as (H1 & H2 & H3 & H4 & H5 & H6 & H7).
    assert (Hrun : Main.onMessage out e = mkRun e [ProcessWrite out] (Returned tt)).
    { unfold Main.onMessage. rewrite H1, H2, H3, H4, H5, H6, H7. reflexivity. }
    split; [exact Hrun|]. rewrite Hrun. cbn [trace Main.backend_stdin].
    unfold Process_write. apply append_empty_r.
Qed.

Ltac split_dispatch :=
  repeat match goal with
    | |- context [String.eqb ?a ?b] => destruct (String.eqb a b)
    | |- context [Std.stoi ?v] => destruct (Std.stoi v)
    | |- context [(0 <? ?n)%nat] => destruct (0 <? n)%nat
    end.

Ltac pick_event :=
  cbn; intros Hin;
  repeat (destruct Hin as [<-|Hin]; [cbn; auto|]);
  try contradiction.

(** Whatever the backend-to-surface table does to a window, it does to
    the window [target] selects. *)
Lemma onStdOut_addresses_target (out : string) (e : Z) (ev : Event) :
  In ev (trace (Main.onStdOut host out e)) ->
  event_window ev = None \/ event_window ev = Some (Main.target (Parse_of out)).
Proof. unfold Main.onStdOut, stoi. split_dispatch; pick_event. Qed.

(** And so for the surface-to-backend table. *)
Lemma onMessage_addresses_target (out : string) (e : Z) (ev : Event) :
  In ev (trace (Main.onMessage out e)) ->
  event_window ev = None \/ event_window ev = Some (Main.target (Parse_of out)).
Proof. unfold Main.onMessage, stoi. split_dispatch; pick_event. Qed.

(** No exception leaves the surface-to-backend table. *)
Lemma onMessage_returns (out : string) (e : Z) :
  outcome (Main.onMessage out e) = Returned tt.
Proof. unfold Main.onMessage, stoi. split_dispatch; reflexivity. Qed.

(** The only branch of the backend-to-surface table an exception can
    leave is the one for size. *)
Lemma onStdOut_returns (out : string) (e : Z) :
  name (Parse_of out) <> "size" ->
  outcome (Main.onStdOut host out e) = Returned tt.
Proof.
  intros Hname. apply String.eqb_neq in Hname.
  unfold Main.onStdOut, stoi. rewrite Hname. split_dispatch; reflexivity.
Qed.

(** Each verb of the backend-to-surface table that addresses a window
    makes at least one call, and all its calls go to the window
    [target] selects. *)
Lemma onStdOut_reaches_target (out : string) (e : Z) :
  In (name (Parse_of out))
    ["title"; "show"; "hide"; "navigate"; "getScreenSize"; "menu"; "external";
     "exit"; "resolve"; "send"]
  \/ (name (Parse_of out) = "size"
      /\ outcome (Main.onStdOut host out e) = Returned tt) ->
  trace (Main.onStdOut host out e) <> []
  /\ Forall (fun ev => event_window ev = Some (Main.target (Parse_of out)))
       (trace (Main.onStdOut host out e)).
Proof.
  intros [Hin|[Hname Hout]].
  - cbn [In] in Hin.
    repeat (destruct Hin as [Hn|Hin];
            [unfold Main.onStdOut, stoi; rewrite <- Hn;
             cbn [String.eqb Ascii.eqb Bool.eqb];
             split_dispatch; (split; [discriminate | repeat constructor])|]).
    contradiction.
  - revert Hout. unfold Main.onStdOut, stoi. rewrite Hname.
    cbn [String.eqb Ascii.eqb Bool.eqb].
    split_dispatch; first [discriminate | intros _; split; [discriminate | repeat constructor]].
Qed.

(** Each verb the surface-to-backend table serves makes one call, on
    the window [target] selects. *)
Lemma onMessage_reaches_target (out : string) (e : Z) :
  In (name (Parse_of out)) Main.local_verbs ->
  trace (Main.onMessage out e) <> []
  /\ Forall (fun ev => event_window ev = Some (Main.target (Parse_of out)))
       (trace (Main.onMessage out e)).
Proof.
  unfold Main.local_verbs. intros Hin. cbn [In] in Hin.
  repeat (destruct Hin as [Hn|Hin];
          [unfold Main.onMessage, stoi; rewrite <- Hn;
           cbn [String.eqb Ascii.eqb Bool.eqb];
           split_dispatch; (split; [discriminate | repeat constructor])|]).
  contradiction.
Qed.

(** C10: in both dispatch tables a command with index 0 acts on window
    0 and a command with any other index acts on window 1.  Every verb
    that addresses a window (in the backend-to-surface table title,
    show, hide, navigate, getScreenSize, menu, external, exit, resolve,
    send, and size when it returns; in the surface-to-backend table the
    seven verbs it serves) makes at least one call, and each of its
    calls goes to window 0 when the index is 0 and to window 1 when it
    is not; no command of either table causes a call on the other
    window.  The index never makes a table fail: the surface-to-backend
    table always returns, and the backend-to-surface table returns for
    every command but size, whose own fields alone can make it throw. *)
Theorem C10_index_selects_window (out : string) (e : Z) (ev : Event) :
  let cmd := Parse_of out in
  let routed :=
    In ev (trace (Main.onStdOut host out e)) \/ In ev (trace (Main.onMessage out e)) in
  let reaches (t : list Event) (w : Window) :=
    t <> [] /\ Forall (fun ev' => event_window ev' = Some w) t in
  let window := if index cmd =? 0 then w0 else w1 in
  (index cmd = 0 -> routed ->
     event_window ev = None \/ event_window ev = Some w0)
  /\ (index cmd <> 0 -> routed ->
      event_window ev = None \/ event_window ev = Some w1)
  /\ outcome (Main.onMessage out e) = Returned tt
  /\ (name cmd <> "size" -> outcome (Main.onStdOut host out e) = Returned tt)
  /\ (In (name cmd)
        ["title"; "show"; "hide"; "navigate"; "getScreenSize"; "menu"; "external";
         "exit"; "resolve"; "send"]
      \/ (name cmd = "size" /\ outcome (Main.onStdOut host out e) = Returned tt) ->
      reaches (trace (Main.onStdOut host out e)) window
      /\ (index cmd = 0 -> reaches (trace (Main.onStdOut host out e)) w0)
      /\ (index cmd <> 0 -> reaches (trace (Main.onStdOut host out e)) w1))
  /\ (In (name cmd) Main.local_verbs ->
      reaches (trace (Main.onMessage out e)) window
      /\ (index cmd = 0 -> reaches (trace (Main.onMessage out e)) w0)
      /\ (index cmd <> 0 -> reaches (trace (Main.onMessage out e)) w1)).
Proof.
  cbv zeta.
  assert (Hboth : In ev (trace (Main.onStdOut host out e))
                  \/ In ev (trace (Main.onMessage out e)) ->
                  event_window ev = None
                  \/ event_window ev = Some (Main.target (Parse_of out))).
  { intros [Hin|Hin];
      [apply (onStdOut_addresses_target _ _ _ Hin)
      |apply (onMessage_addresses_target _ _ _ Hin)]. }
  split; [|split; [|split; [|split; [|split]]]].
  - intros Hidx Hin. specialize (Hboth Hin).
    unfold Main.target in Hboth. rewrite Hidx in Hboth. exact Hboth.
  - intros Hidx Hin. specialize (Hboth Hin).
    unfold Main.target in Hboth.
    apply Z.eqb_neq in Hidx. rewrite Hidx in Hboth. exact Hboth.
  - apply onMessage_returns.
  - apply onStdOut_returns.
  - intros Hverb. pose proof (onStdOut_reaches_target out e Hverb) as Hreach.
    unfold Main.target in Hreach.
    split; [exact Hreach|]. split; intros Hidx.
    + rewrite Hidx in Hreach. exact Hreach.
    + apply Z.eqb_neq in Hidx. rewrite Hidx in Hreach. exact Hreach.
  - intros Hverb. pose proof (onMessage_reaches_target out e Hverb) as Hreach.
    unfold Main.target in Hreach.
    split; [exact Hreach|]. split; intros Hidx.
    + rewrite Hidx in Hreach. exact Hreach.
    + apply Z.eqb_neq in Hidx. rewrite Hidx in Hreach. exact Hreach.
Qed.

End Properties.

(** ** A second entry of the shutdown handler *)



(** ** The scan of the command line *)

Lemma find_at_0_prefix (s p : string) : Std.find_at_0 s p = String.prefix p s.
Proof.
  unfold Std.find_at_0, Std.find. destruct s as [|ch s].
  - destruct p; reflexivity.
  - cbn [String.index]. destruct (String.prefix p (String ch s)); [reflexivity|].
    destruct (String.index 0 p s); reflexivity.
Qed.

(** An argument that starts with [--test] starts with [-]. *)
Lemma test_flag_is_dashed (arg : string) :
  Std.find_at_0 arg "--test" = true -> Std.find_at_0 arg "-" = true.
Proof.
  rewrite !find_at_0_prefix.
  destruct arg as [|ch arg]; cbn [String.prefix]; [discriminate|].
  destruct (ascii_dec "-" ch); [intros _; now destruct arg | discriminate].
Qed.

Lemma existsb_orb {A : Type} (f g : A -> bool) (l : list A) :
  existsb (fun x => f x || g x) l = existsb f l || existsb g l.
Proof.
  induction l as [|x l IH]; cbn [existsb]; [reflexivity|].
  rewrite IH. now destruct (f x), (g x), (existsb f l), (existsb g l).
Qed.

Section Scan.

Context `{helpers : Helpers}.

Lemma scan_arg_c (argc : Z) (st : Main.Scan) (arg : string) :
  Main.c (Main.scan_arg argc st arg) = Main.c st + 1.
Proof.
  unfold Main.scan_arg.
  destruct (Std.find_at_0 arg "--test"); [reflexivity|].
  now destruct ((Main.c st + 1 >=? 2) && negb (Std.find_at_0 arg "-")).
Qed.

(** What one turn of the loop contributes to [isCommandMode]. *)
Lemma scan_arg_isCommandMode (argc : Z) (st : Main.Scan) (arg : string) :
  Main.isCommandMode (Main.scan_arg argc st arg)
  = Main.isCommandMode st
    || (((Main.c st + 1 >=? 2) && negb (Std.find_at_0 arg "-"))
        || Main.helpRequested arg || Main.versionRequested arg).
Proof.
  unfold Main.scan_arg.
  destruct (Std.find_at_0 arg "--test") eqn:Htest.
  - rewrite (test_flag_is_dashed _ Htest). cbn [Main.isCommandMode].
    rewrite andb_false_r.
    now destruct (Main.helpRequested arg), (Main.versionRequested arg),
      (Main.isCommandMode st).
  - destruct ((Main.c st + 1 >=? 2) && negb (Std.find_at_0 arg "-"));
      cbn [Main.isCommandMode];
      now destruct (Main.helpRequested arg), (Main.versionRequested arg),
        (Main.isCommandMode st).
Qed.

(** From the second turn on every argument counts in the same way. *)
Lemma scan_rest (argc : Z) (args : list string) (st : Main.Scan) :
  1 <= Main.c st ->
  Main.isCommandMode (fold_left (Main.scan_arg argc) args st)
  = Main.isCommandMode st
    || existsb (fun arg => negb (Std.find_at_0 arg "-")
                           || (Main.helpRequested arg || Main.versionRequested arg))
         args.
Proof.
  revert st. induction args as [|arg args IH]; intros st Hc; cbn [fold_left existsb].
  - now rewrite orb_false_r.
  - rewrite IH by (rewrite scan_arg_c; lia).
    rewrite scan_arg_isCommandMode.
    assert (Hge : (Main.c st + 1 >=? 2) = true) by (apply Z.geb_le; lia).
    rewrite Hge. cbn [andb]. now rewrite !orb_assoc.
Qed.

Lemma scan_argv_isCommandMode (argv : list string) :
  Main.isCommandMode (Main.scan_argv argv)
  = existsb (fun arg => negb (Std.find_at_0 arg "-")) (tail argv)
    || existsb (fun arg => Main.helpRequested arg || Main.versionRequested arg) argv.
Proof.
  unfold Main.scan_argv. destruct argv as [|prog args]; [reflexivity|].
  cbn [fold_left tail existsb].
  rewrite scan_rest by (rewrite scan_arg_c; cbn; lia).
  rewrite scan_arg_isCommandMode.
  change (Main.c Main.scan_start + 1 >=? 2) with false.
  cbn [andb orb Main.isCommandMode Main.scan_start].
  rewrite existsb_orb.
  now destruct (Main.helpRequested prog), (Main.versionRequested prog),
    (existsb _ args), (existsb _ args).
Qed.

Lemma flag_requested (arg : string) :
  Main.helpRequested arg || Main.versionRequested arg = true
  <-> exists flag,
        In flag ["--help"; "-help"; "-h"; "--version"; "-version"; "-v"; "-V"]
        /\ String.prefix flag arg = true.
Proof.
  unfold Main.helpRequested, Main.versionRequested.
  rewrite !find_at_0_prefix. split.
  - intros Hreq.
    repeat match type of Hreq with
      | (_ || _ = true) => apply orb_true_iff in Hreq; destruct Hreq as [Hreq|Hreq]
      end;
      (eexists; split; [|exact Hreq]; cbn [In]; tauto).
  - intros (flag & Hin & Hp). cbn [In] in Hin.
    repeat (destruct Hin as [<-|Hin]; [rewrite Hp; now rewrite ?orb_true_r|]).
    contradiction.
Qed.

(** C9: the run is in command-forwarding mode exactly when some
    argument after the program name does not start with [-], or some
    argument has one of the help or version flags as a prefix; in every
    other case it goes on to construct the windows of GUI mode. *)
Theorem C9_command_mode_iff (argv : list string) :
  let bare :=
    exists arg, In arg (tail argv) /\ String.prefix "-" arg = false in
  let flagged :=
    exists arg flag,
      In arg argv
      /\ In flag ["--help"; "-help"; "-h"; "--version"; "-version"; "-v"; "-V"]
      /\ String.prefix flag arg = true in
  (Main.isCommandMode (Main.scan_argv argv) = true <-> bare \/ flagged)
  /\ (Main.MAIN_mode argv = Main.CommandMode <-> bare \/ flagged)
  /\ (Main.MAIN_mode argv = Main.GuiMode <-> ~ (bare \/ flagged)).
Proof.
  cbv zeta.
  assert (Hscan : Main.isCommandMode (Main.scan_argv argv) = true <->
    (exists arg, In arg (tail argv) /\ String.prefix "-" arg = false)
    \/ (exists arg flag,
          In arg argv
          /\ In flag ["--help"; "-help"; "-h"; "--version"; "-version"; "-v"; "-V"]
          /\ String.prefix flag arg = true)).
  { rewrite scan_argv_isCommandMode, orb_true_iff, !existsb_exists. split.
    - intros [(arg & Hin & Hdash)|(arg & Hin & Hflag)].
      + left. exists arg. split; [exact Hin|].
        rewrite find_at_0_prefix in Hdash. now apply negb_true_iff.
      + right. apply flag_requested in Hflag as (flag & Hflag & Hp).
        now exists arg, flag.
    - intros [(arg & Hin & Hdash)|(arg & flag & Hin & Hflag & Hp)].
      + left. exists arg. split; [exact Hin|].
        rewrite find_at_0_prefix. now apply negb_true_iff.
      + right. exists arg. split; [exact Hin|].
        apply flag_requested. now exists flag. }
  split; [exact Hscan|]. unfold Main.MAIN_mode.
  destruct (Main.isCommandMode (Main.scan_argv argv)).
  - split.
    + split; [intros _; now apply Hscan | reflexivity].
    + split; [discriminate | intros Hno; exfalso; apply Hno; now apply Hscan].
  - split.
    + split; [discriminate | intros Hyes; apply Hscan in Hyes; discriminate].
    + split; [intros _ Hyes; apply Hscan in Hyes; discriminate | reflexivity].
Qed.

End Scan.

(** ** Runs on concrete lines *)

Example scan_build :
  Main.MAIN_mode (helpers := Demo.helpers) ["app"; "build"; "--target=ios"]
  = Main.CommandMode.
Proof. reflexivity. Qed.

Example scan_forward :
  Main.argvForward (Main.scan_argv (helpers := Demo.helpers) ["app"; "build"; "--target=ios"])
  = " build --target=ios".
Proof. reflexivity. Qed.

Example scan_test_flag :
  Main.MAIN_mode (helpers := Demo.helpers) ["app"; "--test=1"] = Main.GuiMode.
Proof. reflexivity. Qed.

Example scan_help_prefix :
  Main.MAIN_mode (helpers := Demo.helpers) ["app"; "-hidden"] = Main.CommandMode.
Proof. reflexivity. Qed.

(** The backend prints two lines and then its exit command. *)
Example commandMode_until_exit :
  Main.for_each_line (Main.commandMode_onStdOut (helpers := Demo.helpers))
    ["stdout value=compiling%20main"; "stdout value=done"; "exit value=3";
     "stdout value=late"] 0
  = mkRun 3 [CoutLine "compiling main"; CoutLine "done"; ExitCall 3] (Exited 3).
Proof. reflexivity. Qed.

(** In GUI mode the fall-back of an exit command is the current value
    of [exitCode]: 0 at the start, the code of an earlier exit command
    after it. *)
Example onStdOut_exit_fallback_start :
  Main.onStdOut (helpers := Demo.helpers) Demo.host "exit index=1 value=abc" 0
  = mkRun 0 [WindowExit w1 0] (Returned tt).
Proof. reflexivity. Qed.

Example onStdOut_exit_fallback_later :
  Main.router_loop (helpers := Demo.helpers) Demo.host
    ["exit index=1 value=5"; "exit index=1 value=abc"] 0
  = mkRun 5 [WindowExit w1 5; WindowExit w1 5] (Returned tt).
Proof. reflexivity. Qed.

(** The reply to getScreenSize, once in the message callback, is a
    command the surface-to-backend table does not serve: it goes to the
    input of the backend. *)
Example onMessage_forwards_reply :
  Main.onMessage (helpers := Demo.helpers) "resolve seq=7 state=0 value=null" 0
  = mkRun 0 [ProcessWrite "resolve seq=7 state=0 value=null"] (Returned tt).
Proof. reflexivity. Qed.

Example onStdOut_unknown_verb :
  Main.onStdOut (helpers := Demo.helpers) Demo.host "frobnicate index=0 value=1" 0
  = mkRun 0 [] (Returned tt).
Proof. reflexivity. Qed.

(** ** The theorems above at concrete inputs *)

Lemma C6_getScreenSize_reply_witness :
  name (Demo.parse_line "getScreenSize index=0 seq=7") = "getScreenSize"
  /\ Main.onStdOut (helpers := Demo.helpers) Demo.host "getScreenSize index=0 seq=7" 0
     = mkRun 0
         [OnMessage w0
            "resolve seq=7 state=0 value=%7B%22width%22%3A1920%2C%22height%22%3A1080%7D"]
         (Returned tt).
Proof.
  split; [reflexivity|].
  exact (@C6_getScreenSize_reply Demo.helpers Demo.host
           "getScreenSize index=0 seq=7" 0 eq_refl).
Defined.

Lemma C8_external_acknowledge_witness :
  name (Demo.parse_line "external index=1 seq=4 value=https%3A%2F%2Fexample.org")
  = "external"
  /\ Main.onStdOut (helpers := Demo.helpers) Demo.host
       "external index=1 seq=4 value=https%3A%2F%2Fexample.org" 0
     = mkRun 0
         [OpenExternal w1 "https://example.org";
          OnMessage w1 "resolve seq=4 state=0 value=null"]
         (Returned tt).
Proof.
  split; [reflexivity|].
  exact (proj1 (@C8_external_acknowledge Demo.helpers Demo.host
                  "external index=1 seq=4 value=https%3A%2F%2Fexample.org" 0 eq_refl)).
Defined.

Lemma C1_commandMode_exit_throws_witness :
  name (Demo.parse_line "exit value=abc") = "exit"
  /\ Std.stoi (get (Demo.parse_line "exit value=abc") "value") = inl Std.invalid_argument
  /\ Main.commandMode_onStdOut (helpers := Demo.helpers) "exit value=abc" 0
     = mkRun 0 [] (Thrown Std.invalid_argument).
Proof.
  split; [reflexivity|]. split; [reflexivity|].
  exact (@C1_commandMode_exit_throws Demo.helpers "exit value=abc" 0
           Std.invalid_argument eq_refl eq_refl).
Defined.

Lemma C3_commandMode_echo_or_exit_witness :
  (name (Demo.parse_line "stdout value=hello%20world") <> "exit"
   /\ Main.commandMode_onStdOut (helpers := Demo.helpers) "stdout value=hello%20world" 0
      = mkRun 0 [CoutLine "hello world"] (Returned tt))
  /\ (name (Demo.parse_line "exit value=3") = "exit"
      /\ Std.stoi (get (Demo.parse_line "exit value=3") "value") = inr 3
      /\ Main.commandMode_onStdOut (helpers := Demo.helpers) "exit value=3" 0
         = mkRun 3 [ExitCall 3] (Exited 3)).
Proof.
  split.
  - assert (Hname : name (Demo.parse_line "stdout value=hello%20world") <> "exit")
      by discriminate.
    split; [exact Hname|].
    exact (proj1 (@C3_commandMode_echo_or_exit Demo.helpers
                    "stdout value=hello%20world" 0) Hname).
  - split; [reflexivity|]. split; [reflexivity|].
    exact (proj2 (@C3_commandMode_echo_or_exit Demo.helpers "exit value=3" 0)
             eq_refl 3 eq_refl).
Defined.

Lemma C7_size_parse_failure_leaves_router_witness :
  name (Demo.parse_line "size index=0 width=wide height=600") = "size"
  /\ Std.stoi (get (Demo.parse_line "size index=0 width=wide height=600") "width")
     = inl Std.invalid_argument
  /\ Main.router_loop (helpers := Demo.helpers) Demo.host
       ["size index=0 width=wide height=600"; "title index=0 value=Ready"] 0
     = mkRun 0 [] (Thrown Std.invalid_argument).
Proof.
  split; [reflexivity|]. split; [reflexivity|].
  exact (proj2 (@C7_size_parse_failure_leaves_router Demo.helpers Demo.host
                  "size index=0 width=wide height=600" ["title index=0 value=Ready"]
                  0 Std.invalid_argument eq_refl (or_introl eq_refl))).
Defined.

Lemma C2_onMessage_local_or_forward_witness :
  (In (name (Demo.parse_line "hide index=1")) Main.local_verbs
   /\ Main.backend_stdin
        (trace (Main.onMessage (helpers := Demo.helpers) "hide index=1" 0)) = "")
  /\ (~ In (name (Demo.parse_line "send event=ready value=1")) Main.local_verbs
      /\ Main.onMessage (helpers := Demo.helpers) "send event=ready value=1" 0
         = mkRun 0 [ProcessWrite "send event=ready value=1"] (Returned tt)).
Proof.
  split.
  - assert (Hin : In (name (Demo.parse_line "hide index=1")) Main.local_verbs)
      by (vm_compute; tauto).
    split; [exact Hin|].
    exact (proj2 (proj2 (proj1 (@C2_onMessage_local_or_forward Demo.helpers
                                  "hide index=1" 0) Hin))).
  - assert (Hout : ~ In (name (Demo.parse_line "send event=ready value=1"))
                     Main.local_verbs).
    { vm_compute. intros [Hv|[Hv|[Hv|[Hv|[Hv|[Hv|[Hv|[]]]]]]]]; discriminate Hv. }
    split; [exact Hout|].
    exact (proj1 (proj2 (@C2_onMessage_local_or_forward Demo.helpers
                           "send event=ready value=1" 0) Hout)).
Defined.

Lemma C10_index_selects_window_witness :
  (index (Demo.parse_line "title index=7 value=Preview") <> 0
   /\ trace (Main.onStdOut (helpers := Demo.helpers) Demo.host
               "title index=7 value=Preview" 0) <> []
   /\ Forall (fun ev => event_window ev = Some w1)
        (trace (Main.onStdOut (helpers := Demo.helpers) Demo.host
                  "title index=7 value=Preview" 0)))
  /\ (index (Demo.parse_line "hide index=0") = 0
      /\ trace (Main.onMessage (helpers := Demo.helpers) "hide index=0" 0) <> []
      /\ Forall (fun ev => event_window ev = Some w0)
           (trace (Main.onMessage (helpers := Demo.helpers) "hide index=0" 0)))
  /\ (index (Demo.parse_line "inspect index=-3") <> 0
      /\ trace (Main.onMessage (helpers := Demo.helpers) "inspect index=-3" 0) <> []
      /\ Forall (fun ev => event_window ev = Some w1)
           (trace (Main.onMessage (helpers := Demo.helpers) "inspect index=-3" 0))).
Proof.
  assert (Hidx7 : index (Demo.parse_line "title index=7 value=Preview") <> 0)
    by (vm_compute; discriminate).
  assert (Hverb7 :
    In (name (Demo.parse_line "title index=7 value=Preview"))
      ["title"; "show"; "hide"; "navigate"; "getScreenSize"; "menu"; "external";
       "exit"; "resolve"; "send"]
    \/ (name (Demo.parse_line "title index=7 value=Preview") = "size"
        /\ outcome (Main.onStdOut (helpers := Demo.helpers) Demo.host
                      "title index=7 value=Preview" 0) = Returned tt))
    by (left; vm_compute; left; reflexivity).
  assert (Hidx0 : index (Demo.parse_line "hide index=0") = 0)
    by (vm_compute; reflexivity).
  assert (Hverb0 : In (name (Demo.parse_line "hide index=0")) Main.local_verbs)
    by (vm_compute; right; right; left; reflexivity).
  assert (Hidxn : index (Demo.parse_line "inspect index=-3") <> 0)
    by (vm_compute; discriminate).
  assert (Hverbn : In (name (Demo.parse_line "inspect index=-3")) Main.local_verbs)
    by (vm_compute; right; right; right; left; reflexivity).
  split; [|split].
  - split; [exact Hidx7|].
    exact (proj2 (proj2 (proj1 (proj2 (proj2 (proj2 (proj2
             (@C10_index_selects_window Demo.helpers Demo.host
                "title index=7 value=Preview" 0 AppKill))))) Hverb7)) Hidx7).
  - split; [exact Hidx0|].
    exact (proj1 (proj2 (proj2 (proj2 (proj2 (proj2 (proj2
             (@C10_index_selects_window Demo.helpers Demo.host
                "hide index=0" 0 AppKill))))) Hverb0)) Hidx0).
  - split; [exact Hidxn|].
    exact (proj2 (proj2 (proj2 (proj2 (proj2 (proj2 (proj2
             (@C10_index_selects_window Demo.helpers Demo.host
                "inspect index=-3" 0 AppKill))))) Hverbn)) Hidxn).
Defined.

Lemma C9_command_mode_iff_witness :
  In "build" (tail ["app"; "build"; "--target=ios"])
  /\ String.prefix "-" "build" = false
  /\ Main.MAIN_mode (helpers := Demo.helpers) ["app"; "build"; "--target=ios"]
     = Main.CommandMode.
Proof.
  assert (Hin : In "build" (tail ["app"; "build"; "--target=ios"]))
    by (left; reflexivity).
  split; [exact Hin|]. split; [reflexivity|].
  apply (proj1 (proj2 (@C9_command_mode_iff Demo.helpers
                         ["app"; "build"; "--target=ios"]))).
  left. exists "build". split; [exact Hin | reflexivity].
Defined.

(** * More of the two dispatch tables *)

(** A value [std::stoi] returns fits an [int]. *)
Lemma stoi_range (s : string) (v : Z) :
  Std.stoi s = inr v -> Std.INT_MIN <= v <= Std.INT_MAX.
Proof.
  unfold Std.stoi.
  destruct (match Std.skip_space s with
            | String "-"%char rest => (true, rest)
            | String "+"%char rest => (false, rest)
            | _ => (false, Std.skip_space s)
            end) as [negative s2].
  destruct (Std.leading_digits s2 None) as [n|]; [|discriminate].
  destruct ((Std.INT_MIN <=? (if negative then - n else n))
            && ((if negative then - n else n) <=? Std.INT_MAX)) eqn:Hfit;
    [|discriminate].
  intros [= <-]. apply andb_true_iff in Hfit as [Hlo Hhi].
  apply Z.leb_le in Hlo, Hhi. split; assumption.
Qed.

Section MoreRouting.

Context `{helpers : Helpers} (host : Host).

Ltac not_this_verb Hn :=
  repeat match goal with
    | |- context [String.eqb (name ?cmd) ?verb] =>
        replace (String.eqb (name cmd) verb) with false
          by (symmetry; apply String.eqb_neq; intros Heq; apply Hn;
              rewrite Heq; cbn [In];
              repeat (first [left; reflexivity | right]))
    end.

Ltac by_cases :=
  repeat match goal with
    | |- context [String.eqb ?a ?b] => destruct (String.eqb a b)
    | |- context [Std.stoi ?v] => destruct (Std.stoi v)
    | |- context [(0 <? ?n)%nat] => destruct (0 <? n)%nat
    end.

(** X1: a backend command whose name is none of the thirteen verbs of
    the backend-to-surface table is dropped: no call is made, [exitCode]
    keeps its value and the closure returns. *)
Theorem onStdOut_unknown_verb_ignored (out : string) (e : Z) :
  ~ In (name (Parse_of out))
      ["title"; "restart"; "show"; "hide"; "navigate"; "size"; "getScreenSize";
       "menu"; "external"; "exit"; "resolve"; "send"; "stdout"] ->
  Main.onStdOut host out e = mkRun e [] (Returned tt).
Proof.
  intros Hn. unfold Main.onStdOut. not_this_verb Hn. reflexivity.
Qed.

(** X3: when the value of an exit command is not an integer, either
    table hands the window the value [exitCode] has at that moment,
    whatever it is, and leaves it unchanged; no exception leaves the
    table. *)
Theorem exit_fallback_is_current_exitCode (out : string) (e : Z) :
  name (Parse_of out) = "exit" ->
  let cmd := Parse_of out in
  ((exists err, Std.stoi (get cmd "value") = inl err) ->
     exitCode (Main.onStdOut host out e) = e
     /\ hd_error (trace (Main.onStdOut host out e)) = Some (WindowExit (Main.target cmd) e)
     /\ outcome (Main.onStdOut host out e) = Returned tt)
  /\ ((exists err, Std.stoi (decodeURIComponent (get cmd "value")) = inl err) ->
      Main.onMessage out e = mkRun e [WindowExit (Main.target cmd) e] (Returned tt)).
Proof.
  intros Hname. cbv zeta. split.
  - intros [err Hstoi].
    rewrite (onStdOut_exit_parse_failure host out e err Hname Hstoi).
    destruct (String.eqb (get (Parse_of out) "seq") ""); repeat split.
  - intros [err Hstoi].
    exact (onMessage_exit_parse_failure out e err Hname Hstoi).
Qed.

(** X4: only an exit command writes [exitCode]: a command with any
    other name leaves it as it was in both tables, also when the size
    branch throws. *)
Theorem exitCode_written_by_exit_only (out : string) (e : Z) :
  name (Parse_of out) <> "exit" ->
  exitCode (Main.onStdOut host out e) = e
  /\ exitCode (Main.onMessage out e) = e.
Proof.
  intros Hname. apply String.eqb_neq in Hname.
  unfold Main.onStdOut, Main.onMessage, stoi. rewrite Hname.
  split; by_cases; reflexivity.
Qed.

(** X7: an exit message of a surface has its value percent-decoded
    and then converted; the code is stored in [exitCode] and handed to
    the window that sent it.  No reply is made, with or without a
    seq. *)
Theorem onMessage_exit_with_code (out : string) (e code : Z) :
  name (Parse_of out) = "exit" ->
  Std.stoi (decodeURIComponent (get (Parse_of out) "value")) = inr code ->
  Main.onMessage out e
  = mkRun code [WindowExit (Main.target (Parse_of out)) code] (Returned tt).
Proof.
  intros Hname Hstoi.
  unfold Main.onMessage, stoi. rewrite Hname, Hstoi. reflexivity.
Qed.

(** X8: a size command with two integers resizes the addressed window
    to them, with hint 0; both fit an [int], and no reply is made, with
    or without a seq. *)
Theorem onStdOut_size_with_integers (out : string) (e W Ht : Z) :
  name (Parse_of out) = "size" ->
  Std.stoi (get (Parse_of out) "width") = inr W ->
  Std.stoi (get (Parse_of out) "height") = inr Ht ->
  let cmd := Parse_of out in
  Main.onStdOut host out e
  = mkRun e [SetSize (Main.target cmd) (get cmd "seq") W Ht 0] (Returned tt)
  /\ Std.INT_MIN <= W <= Std.INT_MAX
  /\ Std.INT_MIN <= Ht <= Std.INT_MAX.
Proof.
  intros Hname Hw Hh. cbv zeta.
  split; [|split; [exact (stoi_range _ _ Hw) | exact (stoi_range _ _ Hh)]].
  unfold Main.onStdOut, stoi. rewrite Hname, Hw, Hh. reflexivity.
Qed.

End MoreRouting.

(** * The replies of the router and the streams of lines *)

Lemma append_assoc (a b c : string) : (a +:+ b) +:+ c = a +:+ (b +:+ c).
Proof.
  induction a as [|ch a IH]; [reflexivity|].
  change (String ch ((a +:+ b) +:+ c) = String ch (a +:+ (b +:+ c))).
  now rewrite IH.
Qed.

Section Streams.

Context `{helpers : Helpers} (host : Host).

Lemma backend_stdin_app (t1 t2 : list Event) :
  Main.backend_stdin (t1 ++ t2)
  = Main.backend_stdin t1 +:+ Main.backend_stdin t2.
Proof.
  induction t1 as [|ev t1 IH]; [reflexivity|].
  destruct ev; cbn [app Main.backend_stdin]; try exact IH.
  rewrite IH. symmetry. apply append_assoc.
Qed.

(** The backend-to-surface table writes nothing to the backend. *)
Lemma onStdOut_writes_nothing (out : string) (e : Z) :
  Main.backend_stdin (trace (Main.onStdOut host out e)) = "".
Proof.
  unfold Main.onStdOut, stoi.
  repeat match goal with
    | |- context [String.eqb ?a ?b] => destruct (String.eqb a b)
    | |- context [Std.stoi ?v] => destruct (Std.stoi v)
    | |- context [(0 <? ?n)%nat] => destruct (0 <? n)%nat
    end; reflexivity.
Qed.

(** Messages that the surface-to-backend table does not serve are
    written to the backend one after the other. *)
Lemma onMessage_forwards_all (msgs : list string) (e : Z) :
  Forall (fun msg => ~ In (name (Parse_of msg)) Main.local_verbs) msgs ->
  Main.for_each_line Main.onMessage msgs e
  = mkRun e (map ProcessWrite msgs) (Returned tt).
Proof.
  intros Hall. induction Hall as [|msg msgs Hmsg _ IH]; [reflexivity|].
  apply not_local_verb in Hmsg as (H1 & H2 & H3 & H4 & H5 & H6 & H7).
  cbn [Main.for_each_line map]. unfold mbind, M_bind.
  assert (Hrun : Main.onMessage msg e = mkRun e [ProcessWrite msg] (Returned tt)).
  { unfold Main.onMessage. rewrite H1, H2, H3, H4, H5, H6, H7. reflexivity. }
  rewrite Hrun. cbn [outcome exitCode trace]. rewrite IH. reflexivity.
Qed.


End Streams.

(** * More of the scan of the command line *)

Section MoreScan.

Context `{helpers : Helpers}.

Lemma scan_arg_isTest (argc : Z) (st : Main.Scan) (arg : string) :
  Main.isTest (Main.scan_arg argc st arg)
  = Std.find_at_0 arg "--test" || Main.isTest st.
Proof.
  unfold Main.scan_arg.
  destruct (Std.find_at_0 arg "--test"); [reflexivity|].
  now destruct ((Main.c st + 1 >=? 2) && negb (Std.find_at_0 arg "-")).
Qed.

Lemma scan_arg_suffix (argc : Z) (st : Main.Scan) (arg : string) :
  Main.suffix (Main.scan_arg argc st arg)
  = if Std.find_at_0 arg "--test" then "-test" else Main.suffix st.
Proof.
  unfold Main.scan_arg.
  destruct (Std.find_at_0 arg "--test"); [reflexivity|].
  now destruct ((Main.c st + 1 >=? 2) && negb (Std.find_at_0 arg "-")).
Qed.

Lemma scan_arg_wants (argc : Z) (st : Main.Scan) (arg : string) :
  Main.wantsHelp (Main.scan_arg argc st arg)
  = Main.helpRequested arg || Main.wantsHelp st
  /\ Main.wantsVersion (Main.scan_arg argc st arg)
     = Main.versionRequested arg || Main.wantsVersion st.
Proof.
  unfold Main.scan_arg.
  destruct (Std.find_at_0 arg "--test");
    [|destruct ((Main.c st + 1 >=? 2) && negb (Std.find_at_0 arg "-"))];
    cbn [Main.wantsHelp Main.wantsVersion];
    now destruct (Main.helpRequested arg), (Main.versionRequested arg).
Qed.

Lemma scan_fold_flags (argc : Z) (args : list string) (st : Main.Scan) :
  let final := fold_left (Main.scan_arg argc) args st in
  let tested := existsb (fun arg => String.prefix "--test" arg) args in
  Main.isTest final = tested || Main.isTest st
  /\ Main.suffix final = (if tested then "-test" else Main.suffix st)
  /\ Main.wantsHelp final = existsb Main.helpRequested args || Main.wantsHelp st
  /\ Main.wantsVersion final
     = existsb Main.versionRequested args || Main.wantsVersion st.
Proof.
  cbv zeta. revert st.
  induction args as [|arg args IH]; intros st; cbn [fold_left existsb].
  - repeat split.
  - destruct (IH (Main.scan_arg argc st arg)) as (Ht & Hs & Hh & Hv).
    rewrite Ht, Hs, Hh, Hv, scan_arg_isTest, scan_arg_suffix.
    destruct (scan_arg_wants argc st arg) as [-> ->].
    rewrite find_at_0_prefix.
    destruct (String.prefix "--test" arg),
      (existsb (fun arg => String.prefix "--test" arg) args),
      (Main.helpRequested arg), (existsb Main.helpRequested args),
      (Main.versionRequested arg), (existsb Main.versionRequested args);
      repeat split.
Qed.

(** X11: the run is a test run exactly when some argument, the program
    name included, starts with [--test]; the suffix appended to the
    name and the title of the application is then [-test], and empty
    otherwise. *)
Theorem scan_test_flag_and_suffix (argv : list string) :
  Main.isTest (Main.scan_argv argv)
  = existsb (fun arg => String.prefix "--test" arg) argv
  /\ Main.suffix (Main.scan_argv argv)
     = (if Main.isTest (Main.scan_argv argv) then "-test" else "").
Proof.
  unfold Main.scan_argv.
  destruct (scan_fold_flags (Z.of_nat (length argv)) argv Main.scan_start)
    as (Ht & Hs & _).
  rewrite Ht, Hs. cbn [Main.isTest Main.suffix Main.scan_start].
  rewrite orb_false_r. split; reflexivity.
Qed.

(** X12: [wantsHelp] and [wantsVersion] tell whether some argument,
    the program name included, carried a help or a version flag, and
    whenever one of them is set the run is in command mode. *)
Theorem scan_wants_help_version (argv : list string) :
  Main.wantsHelp (Main.scan_argv argv) = existsb Main.helpRequested argv
  /\ Main.wantsVersion (Main.scan_argv argv) = existsb Main.versionRequested argv
  /\ (Main.wantsHelp (Main.scan_argv argv) || Main.wantsVersion (Main.scan_argv argv)
      = true ->
      Main.MAIN_mode argv = Main.CommandMode).
Proof.
  assert (Hh : Main.wantsHelp (Main.scan_argv argv) = existsb Main.helpRequested argv).
  { unfold Main.scan_argv.
    destruct (scan_fold_flags (Z.of_nat (length argv)) argv Main.scan_start)
      as (_ & _ & Hh & _).
    rewrite Hh. apply orb_false_r. }
  assert (Hv : Main.wantsVersion (Main.scan_argv argv)
               = existsb Main.versionRequested argv).
  { unfold Main.scan_argv.
    destruct (scan_fold_flags (Z.of_nat (length argv)) argv Main.scan_start)
      as (_ & _ & _ & Hv).
    rewrite Hv. apply orb_false_r. }
  split; [exact Hh|]. split; [exact Hv|].
  rewrite Hh, Hv. unfold Main.MAIN_mode.
  rewrite scan_argv_isCommandMode, existsb_orb. intros ->.
  now rewrite orb_true_r.
Qed.

(** The quoted form of one argument in [argvArray]. *)
Lemma scan_fold_argvArray (argc : Z) (args : list string) (st : Main.Scan) :
  Main.c st + Z.of_nat (length args) <= argc ->
  let final := fold_left (Main.scan_arg argc) args st in
  Main.argvArray final
  = Main.argvArray st
    +:+ fold_right (fun arg rest => "'" +:+ replace arg "'" "'" +:+ "', " +:+ rest)
          "" args
  /\ Main.c final = Main.c st + Z.of_nat (length args).
Proof.
  cbv zeta. revert st.
  induction args as [|arg args IH]; intros st Hc; cbn [fold_left fold_right length].
  - split; [now rewrite append_empty_r | lia].
  - cbn [length] in Hc. rewrite Nat2Z.inj_succ in Hc.
    destruct (IH (Main.scan_arg argc st arg)) as [Ha Hn];
      [rewrite scan_arg_c; lia|].
    rewrite Ha, Hn, scan_arg_c. split; [|lia].
    assert (Hlt : (Main.c st <? argc) = true) by (apply Z.ltb_lt; lia).
    unfold Main.scan_arg.
    destruct (Std.find_at_0 arg "--test");
      [|destruct ((Main.c st + 1 >=? 2) && negb (Std.find_at_0 arg "-"))];
      cbn [Main.argvArray]; rewrite Hlt, !append_assoc; reflexivity.
Qed.

(** X13: [argvArray] lists every argument between single quotes, and
    every argument, the last one too, is followed by a comma and a
    space: in the loop [c++ < argc] is always true.  When the loop ends
    [c] is the number of arguments. *)
Theorem scan_argvArray_trailing_comma (argv : list string) :
  Main.argvArray (Main.scan_argv argv)
  = fold_right (fun arg rest => "'" +:+ replace arg "'" "'" +:+ "', " +:+ rest)
      "" argv
  /\ Main.c (Main.scan_argv argv) = Z.of_nat (length argv).
Proof.
  unfold Main.scan_argv.
  destruct (scan_fold_argvArray (Z.of_nat (length argv)) argv Main.scan_start)
    as [Ha Hn]; [cbn; lia|].
  rewrite Ha, Hn. split; reflexivity.
Qed.

Lemma scan_fold_argvForward (argc : Z) (args : list string) (st : Main.Scan) :
  1 <= Main.c st ->
  Main.argvForward (fold_left (Main.scan_arg argc) args st)
  = Main.argvForward st
    +:+ fold_right
          (fun arg rest =>
             " " +:+
             (if Main.helpRequested arg then "help --warn-arg-usage=" +:+ arg
              else if Main.versionRequested arg
              then "version --warn-arg-usage=" +:+ arg
              else arg) +:+ rest)
          "" args.
Proof.
  revert st. induction args as [|arg args IH]; intros st Hc;
    cbn [fold_left fold_right].
  - now rewrite append_empty_r.
  - rewrite IH by (rewrite scan_arg_c; lia).
    assert (Hgt : (Main.c st + 1 >? 1) = true) by (apply Z.gtb_lt; lia).
    unfold Main.scan_arg.
    destruct (Std.find_at_0 arg "--test");
      [|destruct ((Main.c st + 1 >=? 2) && negb (Std.find_at_0 arg "-"))];
      cbn [Main.argvForward]; rewrite Hgt;
      destruct (Main.helpRequested arg), (Main.versionRequested arg);
      cbn [orb]; rewrite !append_assoc; reflexivity.
Qed.

(** X14: the arguments forwarded to the backend are the arguments
    after the program name, in order, each after one space; an argument
    with a help or version flag is forwarded as [help] or [version]
    followed by [--warn-arg-usage=] and the argument.  The program name
    is left out, unless it carries such a flag itself. *)
Theorem scan_argvForward (prog : string) (args : list string) :
  Main.argvForward (Main.scan_argv (prog :: args))
  = (if Main.helpRequested prog then " help --warn-arg-usage=" +:+ prog
     else if Main.versionRequested prog then " version --warn-arg-usage=" +:+ prog
     else "")
    +:+ fold_right
          (fun arg rest =>
             " " +:+
             (if Main.helpRequested arg then "help --warn-arg-usage=" +:+ arg
              else if Main.versionRequested arg
              then "version --warn-arg-usage=" +:+ arg
              else arg) +:+ rest)
          "" args.
Proof.
  unfold Main.scan_argv. cbn [fold_left].
  rewrite scan_fold_argvForward by (rewrite scan_arg_c; cbn; lia).
  f_equal. unfold Main.scan_arg.
  change (Main.c Main.scan_start + 1 >=? 2) with false.
  change (Main.c Main.scan_start + 1 >? 1) with false.
  destruct (Std.find_at_0 prog "--test"); cbn [andb Main.argvForward];
    destruct (Main.helpRequested prog), (Main.versionRequested prog);
    reflexivity.
Qed.

End MoreScan.

(** * The rest of the start-up *)

Lemma substring_whole (s : string) : String.substring 0 (String.length s) s = s.
Proof.
  induction s as [|ch s IH]; [reflexivity|].
  cbn [String.length String.substring]. now rewrite IH.
Qed.

(** X15: the command of the backend is made absolute when it starts
    with a dot, and is left alone otherwise, the empty command too.  The
    first dot found is the leading one, so the executable part is empty:
    the new command is the rendering of the working directory joined
    with the empty path, followed by the whole configured command, its
    leading dot included.  No exception leaves the two calls of
    [substr]. *)
Theorem resolve_cmd_keeps_whole_command
    `{paths : Startup.Paths} (cwd cmd : string) :
  Startup.resolve_cmd cwd cmd
  = inr (if String.prefix "." cmd
         then Startup.pathToString
                (Startup.fs_div (Startup.fs_path cwd) (Startup.fs_path ""))
              +:+ cmd
         else cmd).
Proof.
  unfold Startup.resolve_cmd. destruct cmd as [|ch cmd]; [reflexivity|].
  cbn [Startup.at_0 String.prefix Startup.find_first_of].
  destruct (Ascii.eqb_spec ch ".") as [->|Hne].
  - destruct (ascii_dec "." "."); [|contradiction].
    unfold Startup.substr.
    cbn [Nat.ltb Nat.leb String.length String.substring].
    rewrite substring_whole.
    destruct cmd; reflexivity.
  - destruct (ascii_dec "." ch) as [Heq|_]; [now subst|reflexivity].
Qed.

Lemma subscript_append_lookup (m : gmap string string) (key text key' : string) :
  Startup.subscript_append m key text !! key'
  = if decide (key' = key) then Some (default "" (m !! key) +:+ text)
    else m !! key'.
Proof.
  unfold Startup.subscript_append, Startup.subscript.
  destruct (decide (key' = key)) as [->|Hne].
  - by rewrite lookup_insert_eq.
  - by rewrite !lookup_insert_ne.
Qed.

(** X16: after lines 112 to 125 the name and the title of the
    application both carry [-dev] in a debug build and then the test
    suffix; the options [--version], [--name] with the suffixed name,
    and [--debug=1] in a debug build, close the forwarded arguments in
    this order.  No other entry of the configuration changes, and the
    entries [name], [title] and [version] exist afterwards. *)
Theorem finish_args_suffixes
    (DEBUG : bool) (appData : gmap string string) (suffix argvForward : string) :
  let dev := if DEBUG then "-dev" else "" in
  let name' := default "" (appData !! "name") +:+ dev +:+ suffix in
  let title' := default "" (appData !! "title") +:+ dev +:+ suffix in
  let version := default "" (appData !! "version") in
  let result := Startup.finish_args DEBUG appData suffix argvForward in
  fst result !! "name" = Some name'
  /\ fst result !! "title" = Some title'
  /\ fst result !! "version" = Some version
  /\ (forall key, key <> "name" -> key <> "title" -> key <> "version" ->
        fst result !! key = appData !! key)
  /\ snd result
     = argvForward +:+ " --version=" +:+ version +:+ " --name=" +:+ name'
       +:+ (if DEBUG then " --debug=1" else "").
Proof.
  cbv zeta.
  unfold Startup.finish_args, Startup.subscript. cbn [fst snd].
  assert (Hlook : forall key,
    (let appData1 :=
       if DEBUG
       then Startup.subscript_append
              (Startup.subscript_append appData "name" "-dev") "title" "-dev"
       else appData in
     Startup.subscript_append
       (Startup.subscript_append appData1 "name" suffix) "title" suffix) !! key
    = if decide (key = "title")
      then Some (default "" (appData !! "title")
                 +:+ (if DEBUG then "-dev" else "") +:+ suffix)
      else if decide (key = "name")
      then Some (default "" (appData !! "name")
                 +:+ (if DEBUG then "-dev" else "") +:+ suffix)
      else appData !! key).
  { intros key. cbv zeta. destruct DEBUG;
      rewrite !subscript_append_lookup;
      repeat case_decide; simplify_eq; cbn [default from_option id];
      rewrite ?append_assoc; reflexivity. }
  cbv zeta in Hlook.
  set (m3 := Startup.subscript_append _ "title" suffix) in *.
  assert (Hv : m3 !! "version" = appData !! "version")
    by (rewrite Hlook; repeat case_decide; done).
  assert (Hn : m3 !! "name"
               = Some (default "" (appData !! "name")
                       +:+ (if DEBUG then "-dev" else "") +:+ suffix))
    by (rewrite Hlook; repeat case_decide; done).
  assert (Ht : m3 !! "title"
               = Some (default "" (appData !! "title")
                       +:+ (if DEBUG then "-dev" else "") +:+ suffix))
    by (rewrite Hlook; repeat case_decide; done).
  repeat split.
  - rewrite lookup_insert_eq, lookup_insert_ne by done. now rewrite Hn.
  - rewrite !lookup_insert_ne by done. exact Ht.
  - rewrite lookup_insert_ne by done. rewrite lookup_insert_eq. now rewrite Hv.
  - intros key Hkn Hkt Hkv. rewrite !lookup_insert_ne by done.
    rewrite Hlook. repeat case_decide; done.
  - rewrite lookup_insert_ne by done. rewrite Hn, Hv. cbn [default from_option id].
    destruct DEBUG; rewrite ?append_empty_r, !append_assoc; reflexivity.
Qed.

(** * The tables with the callback slots of the windows filled *)

Section Live.

Context `{helpers : Helpers} (host : Host).

Hypothesis replies : Main.replies_are_forwarded.

Ltac forward_reply :=
  match goal with
  | |- context [Parse_of (resolveToMainProcess ?a ?b ?c)] =>
      let H1 := fresh in let H2 := fresh in let H3 := fresh in
      let H4 := fresh in let H5 := fresh in let H6 := fresh in
      let H7 := fresh in
      destruct (not_local_verb _ (replies a b c))
        as (H1 & H2 & H3 & H4 & H5 & H6 & H7);
      rewrite ?H1, ?H2, ?H3, ?H4, ?H5, ?H6, ?H7
  end.

Ltac live_cases :=
  repeat match goal with
    | |- context [String.eqb (name (Parse_of ?out)) ?b] =>
        is_var out; destruct (String.eqb (name (Parse_of out)) b)
    | |- context [Std.stoi ?v] => destruct (Std.stoi v)
    | |- context [(0 <? ?n)%nat] => destruct (0 <? n)%nat
    end.

(** A reply handed to the message callback of a window is written to
    the backend and nothing else happens. *)
Lemma Window_onMessage_reply (w : Window) (seq state value : string) (e : Z) :
  Main.Window_onMessage host w (resolveToMainProcess seq state value) e
  = mkRun e
      [OnMessage w (resolveToMainProcess seq state value);
       ProcessWrite (resolveToMainProcess seq state value)]
      (Returned tt).
Proof.
  unfold Main.Window_onMessage, Main.onMessage_live. cbv zeta.
  forward_reply. reflexivity.
Qed.


(** The closure with the slots filled, for every command but an exit
    command on window 0: the calls of the closure itself, and after
    them its replies written to the backend. *)
Lemma onStdOut_live_unless_exit_on_0 (out : string) (e : Z) :
  name (Parse_of out) <> "exit" \/ index (Parse_of out) <> 0 ->
  Main.onStdOut_live host out e
  = mkRun (exitCode (Main.onStdOut host out e))
      (trace (Main.onStdOut host out e)
       ++ map ProcessWrite
            (Callbacks.callback_messages (trace (Main.onStdOut host out e))))
      (outcome (Main.onStdOut host out e)).
Proof.
  intros Hok.
  destruct (String.eqb (name (Parse_of out)) "exit") eqn:Hexit.
  - apply String.eqb_eq in Hexit.
    assert (Hidx : (index (Parse_of out) =? 0) = false).
    { apply Z.eqb_neq. destruct Hok as [Hn|Hi]; [contradiction|exact Hi]. }
    unfold Main.onStdOut_live, Main.onStdOut, Main.target, stoi.
    rewrite Hexit, Hidx. cbn [String.eqb Ascii.eqb Bool.eqb].
    unfold Main.Window_exit, Main.Window_onMessage, Main.onMessage_live.
    cbn [Main.canExit]. cbv zeta.
    destruct (Std.stoi (get (Parse_of out) "value"));
      destruct (0 <? String.length (get (Parse_of out) "seq"))%nat;
      try forward_reply; reflexivity.
  - unfold Main.onStdOut_live, Main.onStdOut, stoi.
    rewrite Hexit.
    unfold Main.Window_onMessage, Main.onMessage_live. cbv zeta.
    live_cases; try forward_reply; reflexivity.
Qed.

(** The surface-to-backend table with the slots filled, for every
    message but an exit message of window 0: the table as it is. *)
Lemma onMessage_live_unless_exit_on_0 (out : string) (e : Z) :
  name (Parse_of out) <> "exit" \/ index (Parse_of out) <> 0 ->
  Main.onMessage_live host out e = Main.onMessage out e.
Proof.
  intros Hok.
  destruct (String.eqb (name (Parse_of out)) "exit") eqn:Hexit.
  - apply String.eqb_eq in Hexit.
    assert (Hidx : (index (Parse_of out) =? 0) = false).
    { apply Z.eqb_neq. destruct Hok as [Hn|Hi]; [contradiction|exact Hi]. }
    unfold Main.onMessage_live, Main.onMessage, Main.target, stoi.
    rewrite Hexit, Hidx. cbn [String.eqb Ascii.eqb Bool.eqb].
    unfold Main.Window_exit. cbn [Main.canExit].
    destruct (Std.stoi (decodeURIComponent (get (Parse_of out) "value")));
      reflexivity.
  - unfold Main.onMessage_live, Main.onMessage. rewrite Hexit. reflexivity.
Qed.

(** An exit command of the backend on window 0: the window is told the
    code, the parsed one or else the current [exitCode], and the
    shutdown handler ends the process with it. *)
Lemma onStdOut_live_exit_on_0 (out : string) (e : Z) :
  name (Parse_of out) = "exit" ->
  index (Parse_of out) = 0 ->
  let code :=
    match Std.stoi (get (Parse_of out) "value") with
    | inr c => c
    | inl _ => e
    end in
  Main.onStdOut_live host out e
  = mkRun code
      [WindowExit w0 code;
       ProcessKill (getPID host); WindowKill w0; WindowKill w1; AppKill;
       ExitCall code]
      (Exited code).
Proof.
  intros Hname Hidx. cbv zeta.
  unfold Main.onStdOut_live, stoi, Main.target. rewrite Hname, Hidx.
  destruct (Std.stoi (get (Parse_of out) "value")); reflexivity.
Qed.

(** The same for an exit message of window 0. *)
Lemma onMessage_live_exit_on_0 (out : string) (e : Z) :
  name (Parse_of out) = "exit" ->
  index (Parse_of out) = 0 ->
  let code :=
    match Std.stoi (decodeURIComponent (get (Parse_of out) "value")) with
    | inr c => c
    | inl _ => e
    end in
  Main.onMessage_live host out e
  = mkRun code
      [WindowExit w0 code;
       ProcessKill (getPID host); WindowKill w0; WindowKill w1; AppKill;
       ExitCall code]
      (Exited code).
Proof.
  intros Hname Hidx. cbv zeta.
  unfold Main.onMessage_live, stoi, Main.target. rewrite Hname, Hidx.
  destruct (Std.stoi (decodeURIComponent (get (Parse_of out) "value")));
    reflexivity.
Qed.

(** The closure of [onStdOut] kills nothing and does not call [exit]. *)
Lemma onStdOut_no_teardown (out : string) (e : Z) (ev : Event) :
  In ev (trace (Main.onStdOut host out e)) ->
  match ev with
  | ProcessKill _ | WindowKill _ | AppKill | ExitCall _ => False
  | _ => True
  end.
Proof.
  unfold Main.onStdOut, stoi.
  live_cases; cbn; intros Hin;
    repeat (destruct Hin as [<-|Hin]; [exact I|]); contradiction.
Qed.

(** Nor does [onMessage]. *)
Lemma onMessage_no_teardown (out : string) (e : Z) (ev : Event) :
  In ev (trace (Main.onMessage out e)) ->
  match ev with
  | ProcessKill _ | WindowKill _ | AppKill | ExitCall _ => False
  | _ => True
  end.
Proof.
  unfold Main.onMessage, stoi.
  live_cases; cbn; intros Hin;
    repeat (destruct Hin as [<-|Hin]; [exact I|]); contradiction.
Qed.



(** What the closure of [onStdOut] leaves in [exitCode]. *)
Lemma onStdOut_exitCode (line : string) (e : Z) :
  exitCode (Main.onStdOut host line e)
  = if String.eqb (name (Parse_of line)) "exit"
    then match Std.stoi (get (Parse_of line) "value") with
         | inr code => code
         | inl _ => e
         end
    else e.
Proof.
  unfold Main.onStdOut, stoi.
  destruct (String.eqb (name (Parse_of line)) "exit") eqn:Hexit.
  - apply String.eqb_eq in Hexit. rewrite Hexit.
    cbn [String.eqb Ascii.eqb Bool.eqb].
    destruct (Std.stoi (get (Parse_of line) "value"));
      destruct (0 <? String.length (get (Parse_of line) "seq"))%nat; reflexivity.
  - live_cases; first [reflexivity | discriminate].
Qed.

Lemma goes_on_live (line : string) (e : Z) :
  Main.goes_on line ->
  outcome (Main.onStdOut_live host line e) = Returned tt
  /\ exitCode (Main.onStdOut_live host line e)
     = exitCode (Main.onStdOut host line e).
Proof.
  intros [Hsize Hexit].
  assert (Hok : name (Parse_of line) <> "exit" \/ index (Parse_of line) <> 0).
  { destruct (String.eqb_spec (name (Parse_of line)) "exit") as [Heq|Hne];
      [right; exact (Hexit Heq) | left; exact Hne]. }
  rewrite (onStdOut_live_unless_exit_on_0 line e Hok). cbn [outcome exitCode].
  split; [apply (onStdOut_returns host line e Hsize) | reflexivity].
Qed.




End Live.



(** * The flags *)

Lemma prefix_dash_word (ch : ascii) (word arg : string) :
  String.prefix (String "-" (String ch word)) arg = true ->
  String.prefix (String "-" (String ch "")) arg = true.
Proof.
  destruct arg as [|a arg]; cbn [String.prefix]; [discriminate|].
  destruct (ascii_dec "-" a); [|discriminate].
  destruct arg as [|b arg]; cbn [String.prefix]; [discriminate|].
  destruct (ascii_dec ch b); [|discriminate].
  intros _. now destruct arg.
Qed.

(** X18: of the three tests for a help flag the one for [-help] adds
    nothing, and so for [-version]: an argument asks for help exactly
    when it starts with [--help] or [-h], and for the version exactly
    when it starts with [--version], [-v] or [-V]. *)
Theorem flags_by_prefix (arg : string) :
  Main.helpRequested arg = String.prefix "--help" arg || String.prefix "-h" arg
  /\ Main.versionRequested arg
     = String.prefix "--version" arg || String.prefix "-v" arg
       || String.prefix "-V" arg.
Proof.
  unfold Main.helpRequested, Main.versionRequested.
  rewrite !find_at_0_prefix. split.
  - destruct (String.prefix "-help" arg) eqn:Hlong.
    + rewrite (prefix_dash_word "h" "elp" arg Hlong). now rewrite !orb_true_r.
    + now rewrite orb_false_r.
  - destruct (String.prefix "-version" arg) eqn:Hlong.
    + rewrite (prefix_dash_word "v" "ersion" arg Hlong). now rewrite !orb_true_r.
    + now rewrite orb_false_r.
Qed.

(** * More runs on concrete lines *)

Example scan_argvArray_two :
  Main.argvArray (Main.scan_argv (helpers := Demo.helpers) ["app"; "build"])
  = "'app', 'build', ".
Proof. reflexivity. Qed.

Example scan_argvForward_help :
  Main.argvForward
    (Main.scan_argv (helpers := Demo.helpers) ["app"; "--test"; "-h"; "run"])
  = " --test help --warn-arg-usage=-h run".
Proof. reflexivity. Qed.

Example exit_value_decoded_by_surface_table_only :
  Main.onStdOut (helpers := Demo.helpers) Demo.host "exit index=1 value=%34%32" 7
  = mkRun 7 [WindowExit w1 7] (Returned tt)
  /\ Main.onMessage (helpers := Demo.helpers) "exit index=1 value=%34%32" 7
     = mkRun 42 [WindowExit w1 42] (Returned tt).
Proof. split; reflexivity. Qed.

(** The replies of the concrete runtime are commands named resolve. *)
Lemma demo_replies_are_forwarded : @Main.replies_are_forwarded Demo.helpers.
Proof.
  intros seq state value.
  change (~ In (name (Demo.parse_line
                        ("resolve seq=" +:+ seq +:+ " state=" +:+ state
                         +:+ " value=" +:+ value)))
            Main.local_verbs).
  assert (Hname : name (Demo.parse_line
                          ("resolve seq=" +:+ seq +:+ " state=" +:+ state
                           +:+ " value=" +:+ value)) = "resolve")
    by reflexivity.
  rewrite Hname. vm_compute. intros Hin.
  repeat (destruct Hin as [Hin|Hin]; [discriminate Hin|]).
  exact Hin.
Defined.

Ltac line_goes_on :=
  split;
  [ vm_compute; discriminate
  | let Hx := fresh in
    intros Hx; vm_compute in Hx |- *;
    first [discriminate Hx | let Hz := fresh in intros Hz; discriminate Hz] ].

Lemma onStdOut_unknown_verb_ignored_witness :
  Main.onStdOut (helpers := Demo.helpers) Demo.host "frobnicate index=0 value=1" 5
  = mkRun 5 [] (Returned tt).
Proof.
  apply (@onStdOut_unknown_verb_ignored Demo.helpers Demo.host
           "frobnicate index=0 value=1" 5).
  vm_compute.
  intros Hin.
  repeat (destruct Hin as [Hin|Hin]; [discriminate Hin|]).
  exact Hin.
Defined.


Lemma exit_fallback_is_current_exitCode_witness :
  exitCode (Main.onStdOut (helpers := Demo.helpers) Demo.host "exit index=1 value=abc" 5)
  = 5
  /\ Main.onMessage (helpers := Demo.helpers) "exit index=1 value=abc" 5
     = mkRun 5 [WindowExit w1 5] (Returned tt).
Proof.
  split.
  - apply (proj1 (@exit_fallback_is_current_exitCode Demo.helpers Demo.host
                    "exit index=1 value=abc" 5 eq_refl)).
    exists Std.invalid_argument. reflexivity.
  - apply (proj2 (@exit_fallback_is_current_exitCode Demo.helpers Demo.host
                    "exit index=1 value=abc" 5 eq_refl)).
    exists Std.invalid_argument. reflexivity.
Defined.

Lemma exitCode_written_by_exit_only_witness :
  exitCode (Main.onStdOut (helpers := Demo.helpers) Demo.host
              "size index=0 width=wide height=600" 5) = 5
  /\ exitCode (Main.onMessage (helpers := Demo.helpers)
                 "size index=0 width=wide height=600" 5) = 5.
Proof.
  apply (@exitCode_written_by_exit_only Demo.helpers Demo.host
           "size index=0 width=wide height=600" 5).
  vm_compute. discriminate.
Defined.



Lemma onMessage_exit_with_code_witness :
  Main.onMessage (helpers := Demo.helpers) "exit index=1 seq=2 value=%34%32" 0
  = mkRun 42 [WindowExit w1 42] (Returned tt).
Proof.
  assert (Hname : name (Demo.parse_line "exit index=1 seq=2 value=%34%32") = "exit")
    by (vm_compute; reflexivity).
  assert (Hstoi : Std.stoi (Demo.percent_decode
                              (get (Demo.parse_line "exit index=1 seq=2 value=%34%32")
                                 "value")) = inr 42)
    by (vm_compute; reflexivity).
  pose proof (@onMessage_exit_with_code Demo.helpers
                "exit index=1 seq=2 value=%34%32" 0 42 Hname Hstoi) as Hrun.
  vm_compute in Hrun |- *. exact Hrun.
Defined.

Lemma onStdOut_size_with_integers_witness :
  Main.onStdOut (helpers := Demo.helpers) Demo.host
    "size index=1 seq=3 width=800px height=-1" 0
  = mkRun 0 [SetSize w1 "3" 800 (-1) 0] (Returned tt).
Proof.
  assert (Hname : name (Demo.parse_line "size index=1 seq=3 width=800px height=-1")
                  = "size")
    by (vm_compute; reflexivity).
  assert (Hw : Std.stoi (get (Demo.parse_line "size index=1 seq=3 width=800px height=-1")
                           "width") = inr 800)
    by (vm_compute; reflexivity).
  assert (Hh : Std.stoi (get (Demo.parse_line "size index=1 seq=3 width=800px height=-1")
                           "height") = inr (-1))
    by (vm_compute; reflexivity).
  pose proof (proj1 (@onStdOut_size_with_integers Demo.helpers Demo.host
                       "size index=1 seq=3 width=800px height=-1" 0 800 (-1)
                       Hname Hw Hh)) as Hrun.
  vm_compute in Hrun |- *. exact Hrun.
Defined.



Lemma commandMode_stream_witness :
  Main.for_each_line (Main.commandMode_onStdOut (helpers := Demo.helpers))
    (["stdout value=a%20b"; "log value=c"] ++ "exit value=3" :: ["stdout value=late"]) 0
  = mkRun 3 [CoutLine "a b"; CoutLine "c"; ExitCall 3] (Exited 3).
Proof.
  assert (Hbefore :
    Forall (fun l => name (Demo.parse_line l) <> "exit")
      ["stdout value=a%20b"; "log value=c"]).
  { repeat (constructor; [vm_compute; discriminate|]).
    constructor. }
  assert (Hname : name (Demo.parse_line "exit value=3") = "exit")
    by (vm_compute; reflexivity).
  assert (Hstoi : Std.stoi (get (Demo.parse_line "exit value=3") "value") = inr 3)
    by (vm_compute; reflexivity).
  pose proof (@commandMode_stream Demo.helpers
                ["stdout value=a%20b"; "log value=c"] ["stdout value=late"]
                "exit value=3" 3 0 Hbefore Hname Hstoi) as Hrun.
  vm_compute in Hrun |- *. exact Hrun.
Defined.

Lemma scan_wants_help_version_witness :
  Main.MAIN_mode (helpers := Demo.helpers) ["app"; "--version"] = Main.CommandMode.
Proof.
  apply (proj2 (proj2 (@scan_wants_help_version Demo.helpers ["app"; "--version"]))).
  reflexivity.
Defined.


